(** * bot.py: a single-admin URL-to-deep-link Telegram bot

    Shallow embedding of [src/bot.py] and proofs about it.

    Conventions of the embedding.
    - A Python [str] is a Rocq [string] holding the UTF-8 encoding of the
      text, so [str.encode()] is the list of its bytes; operations that
      count characters ([s[:50]], [s[5:]]) step over whole UTF-8 code
      points.  Text that [encode] would refuse (lone surrogates) is not
      represented.
    - A Python [int] and an SQLite INTEGER are [Z].  The 64-bit range of
      SQLite integers is not modelled: [click_count] grows by one per
      lookup and cannot reach 2^63 in any run of the bot.
    - [time.time()] and SQLite's [CURRENT_TIMESTAMP] are readings of the
      outside world; they are fields of the world the handlers run in,
      already rendered as text.
    - [hashlib.md5] is the MD5 function of RFC 1321, embedded in full.
    - The [sqlite3] connection is a working copy of the table that
      [commit] writes back and [close] discards.
    - Every effect a function performs (SQL statements, log lines, chat
      replies, clock reads) is recorded, in order, in a journal.
    - [application.run_polling()] is the sequence of updates that arrive,
      handled one at a time by the handler registered for each. *)

From Stdlib Require Import String Ascii ZArith List Bool Lia.
From Stdlib Require Import Sorted Permutation DecimalString.
Import ListNotations.
Local Open Scope string_scope.
Local Open Scope list_scope.
Local Open Scope Z_scope.

(* ===================================================================== *)
(** ** Python strings *)
(* ===================================================================== *)

Module PyStr.

(** [s.startswith(p)] *)
Definition startswith (s p : string) : bool := String.prefix p s.

(** [s.startswith((p1, p2, ...))]: true when some prefix matches. *)
Definition startswith_any (s : string) (ps : list string) : bool :=
  existsb (startswith s) ps.

(** The number of bytes of the UTF-8 code point that starts with the
    byte [a]: 0xxxxxxx is one byte, 110xxxxx two, 1110xxxx three,
    11110xxx four. *)
Definition char_width (a : ascii) : nat :=
  match a with
  | Ascii _ _ _ _ _ false true true => 2
  | Ascii _ _ _ _ false true true true => 3
  | Ascii _ _ _ false true true true true => 4
  | _ => 1
  end%nat.

Fixpoint drop_bytes (k : nat) (s : string) : string :=
  match k, s with
  | S k', String _ rest => drop_bytes k' rest
  | _, _ => s
  end.

Fixpoint take_bytes (k : nat) (s : string) : string :=
  match k, s with
  | S k', String a rest => String a (take_bytes k' rest)
  | _, _ => EmptyString
  end.

(** [s[n:]], counted in code points. *)
Fixpoint drop_chars (n : nat) (s : string) : string :=
  match n, s with
  | S n', String a _ => drop_chars n' (drop_bytes (char_width a) s)
  | _, _ => s
  end.

(** [s[:n]], counted in code points. *)
Fixpoint take_chars (n : nat) (s : string) : string :=
  match n, s with
  | S n', String a _ =>
      (take_bytes (char_width a) s
       ++ take_chars n' (drop_bytes (char_width a) s))%string
  | _, _ => EmptyString
  end.

(** [str(i)] for an [int]. *)
Definition str_of_int (i : Z) : string :=
  NilZero.string_of_int (Z.to_int i).

(** [s.encode()]: the bytes of the text, as numbers in 0..255. *)
Definition encode (s : string) : list Z :=
  map (fun a => Z.of_N (N_of_ascii a)) (list_ascii_of_string s).

(** Python truthiness of a [str]: empty is false. *)
Definition truthy (s : string) : bool :=
  match s with EmptyString => false | _ => true end.

(** [x or d] for an optional [str]. *)
Definition or_default (x : option string) (d : string) : string :=
  match x with
  | Some s => if truthy s then s else d
  | None => d
  end.

End PyStr.

(* ===================================================================== *)
(** ** hashlib.md5 (RFC 1321) *)
(* ===================================================================== *)

Module MD5.

Definition mask32 : Z := Z.ones 32.
Definition add32 (a b : Z) : Z := Z.land (a + b) mask32.
Definition not32 (a : Z) : Z := Z.lxor a mask32.
Definition rotl32 (x c : Z) : Z :=
  Z.lor (Z.land (Z.shiftl x c) mask32) (Z.shiftr x (32 - c)).

(** Per-round shift amounts. *)
Definition S_table : list Z :=
  [7; 12; 17; 22; 7; 12; 17; 22; 7; 12; 17; 22; 7; 12; 17; 22;
   5;  9; 14; 20; 5;  9; 14; 20; 5;  9; 14; 20; 5;  9; 14; 20;
   4; 11; 16; 23; 4; 11; 16; 23; 4; 11; 16; 23; 4; 11; 16; 23;
   6; 10; 15; 21; 6; 10; 15; 21; 6; 10; 15; 21; 6; 10; 15; 21].

(** K[i] = floor(2^32 * abs(sin(i + 1))). *)
Definition K_table : list Z :=
  [0xd76aa478; 0xe8c7b756; 0x242070db; 0xc1bdceee;
   0xf57c0faf; 0x4787c62a; 0xa8304613; 0xfd469501;
   0x698098d8; 0x8b44f7af; 0xffff5bb1; 0x895cd7be;
   0x6b901122; 0xfd987193; 0xa679438e; 0x49b40821;
   0xf61e2562; 0xc040b340; 0x265e5a51; 0xe9b6c7aa;
   0xd62f105d; 0x02441453; 0xd8a1e681; 0xe7d3fbc8;
   0x21e1cde6; 0xc33707d6; 0xf4d50d87; 0x455a14ed;
   0xa9e3e905; 0xfcefa3f8; 0x676f02d9; 0x8d2a4c8a;
   0xfffa3942; 0x8771f681; 0x6d9d6122; 0xfde5380c;
   0xa4beea44; 0x4bdecfa9; 0xf6bb4b60; 0xbebfbc70;
   0x289b7ec6; 0xeaa127fa; 0xd4ef3085; 0x04881d05;
   0xd9d4d039; 0xe6db99e5; 0x1fa27cf8; 0xc4ac5665;
   0xf4292244; 0x432aff97; 0xab9423a7; 0xfc93a039;
   0x655b59c3; 0x8f0ccc92; 0xffeff47d; 0x85845dd1;
   0x6fa87e4f; 0xfe2ce6e0; 0xa3014314; 0x4e0811a1;
   0xf7537e82; 0xbd3af235; 0x2ad7d2bb; 0xeb86d391].

(** The chaining state A, B, C, D. *)
Record state := mkState { sA : Z; sB : Z; sC : Z; sD : Z }.

Definition init : state :=
  mkState 0x67452301 0xefcdab89 0x98badcfe 0x10325476.

(** A little-endian 32-bit word from four bytes. *)
Definition word_of_bytes (bs : list Z) : Z :=
  match bs with
  | [b0; b1; b2; b3] =>
      Z.lor b0 (Z.lor (Z.shiftl b1 8)
                      (Z.lor (Z.shiftl b2 16) (Z.shiftl b3 24)))
  | _ => 0
  end.

(** Cut a list into pieces of [n] elements ([fuel] bounds the pieces). *)
Fixpoint pieces {A} (fuel n : nat) (l : list A) : list (list A) :=
  match fuel with
  | O => []
  | S fuel' =>
      match l with
      | [] => []
      | _ => firstn n l :: pieces fuel' n (skipn n l)
      end
  end.

Definition words_of_block (block : list Z) : list Z :=
  map word_of_bytes (pieces 16 4 block).

(** The 64-bit little-endian rendering of a length. *)
Definition le_bytes (count : nat) (x : Z) : list Z :=
  map (fun k => Z.land (Z.shiftr x (8 * Z.of_nat k)) 255) (seq 0 count).

(** Padding: a one bit, zeros up to 56 mod 64, the bit length. *)
Definition pad (msg : list Z) : list Z :=
  let len := Z.of_nat (length msg) in
  let zeros := Z.to_nat ((55 - len) mod 64) in
  msg ++ [128] ++ repeat 0 zeros ++ le_bytes 8 (Z.land (8 * len) (Z.ones 64)).

(** One of the 64 operations on the working state. *)
Definition step (M : list Z) (st : state) (i : nat) : state :=
  let '(mkState a b c d) := st in
  let iz := Z.of_nat i in
  let '(f, g) :=
    if iz <? 16 then (Z.lor (Z.land b c) (Z.land (not32 b) d), iz)
    else if iz <? 32 then
           (Z.lor (Z.land d b) (Z.land (not32 d) c), (5 * iz + 1) mod 16)
    else if iz <? 48 then (Z.lxor b (Z.lxor c d), (3 * iz + 5) mod 16)
    else (Z.lxor c (Z.lor b (not32 d)), (7 * iz) mod 16) in
  let f' := add32 (add32 (add32 f a) (nth i K_table 0))
                  (nth (Z.to_nat g) M 0) in
  mkState d (add32 b (rotl32 f' (nth i S_table 0))) b c.

Definition process_block (st : state) (block : list Z) : state :=
  let M := words_of_block block in
  let r := fold_left (step M) (seq 0 64) st in
  mkState (add32 (sA st) (sA r)) (add32 (sB st) (sB r))
          (add32 (sC st) (sC r)) (add32 (sD st) (sD r)).

Definition final_state (msg : list Z) : state :=
  let padded := pad msg in
  fold_left process_block (pieces (length padded) 64 padded) init.

(** [md5(msg).digest()]: the four words, little-endian. *)
Definition digest_of_state (st : state) : list Z :=
  le_bytes 4 (sA st) ++ le_bytes 4 (sB st)
  ++ le_bytes 4 (sC st) ++ le_bytes 4 (sD st).

Definition digest (msg : list Z) : list Z :=
  digest_of_state (final_state msg).

Definition hexchar (n : Z) : ascii :=
  match n with
  | 0 => "0" | 1 => "1" | 2 => "2" | 3 => "3" | 4 => "4" | 5 => "5"
  | 6 => "6" | 7 => "7" | 8 => "8" | 9 => "9" | 10 => "a" | 11 => "b"
  | 12 => "c" | 13 => "d" | 14 => "e" | _ => "f"
  end%char.

(** Two lowercase hexadecimal characters per byte. *)
Fixpoint hex_of_bytes (bs : list Z) : string :=
  match bs with
  | [] => EmptyString
  | b :: rest =>
      String (hexchar (Z.land (Z.shiftr b 4) 15))
             (String (hexchar (Z.land b 15)) (hex_of_bytes rest))
  end.

(** [md5(msg).hexdigest()] *)
Definition hexdigest (msg : list Z) : string := hex_of_bytes (digest msg).

End MD5.

(* ===================================================================== *)
(** ** The [urls] table *)
(* ===================================================================== *)

(** One row of
    [CREATE TABLE urls (id INTEGER PRIMARY KEY AUTOINCREMENT,
       unique_id TEXT UNIQUE NOT NULL, original_url TEXT NOT NULL,
       created_at DATETIME DEFAULT CURRENT_TIMESTAMP,
       click_count INTEGER DEFAULT 0, user_id INTEGER, user_name TEXT)]. *)
Record row := mkRow {
  id : Z;
  unique_id : string;
  original_url : string;
  created_at : string;
  click_count : Z;
  user_id : Z;
  user_name : string
}.

(** The table in insertion order. *)
Definition table := list row.

(** [click_count INTEGER DEFAULT 0] *)
Definition click_count_default : Z := 0.

Definition has_unique_id (u : string) (r : row) : bool :=
  String.eqb (unique_id r) u.

(** AUTOINCREMENT: one more than the largest rowid handed out so far. *)
Definition next_rowid (t : table) : Z :=
  1 + fold_right Z.max 0 (map id t).

Definition bump (r : row) : row :=
  mkRow (id r) (unique_id r) (original_url r) (created_at r)
        (click_count r + 1) (user_id r) (user_name r).

(* ===================================================================== *)
(** ** Effects *)
(* ===================================================================== *)

Module User.
(** [telegram.User], the fields the bot reads. *)
Record t := mk {
  id : Z;
  first_name : string;
  last_name : option string;
  username : option string
}.
End User.

(** [InlineKeyboardButton(label, url=...)] *)
Record InlineKeyboardButton := mkButton {
  button_text : string;
  button_url : string
}.

Definition InlineKeyboardMarkup := list (list InlineKeyboardButton).

Inductive level := INFO | ERROR.

(** The SQL statements of the program. *)
Inductive sql :=
| CreateTableIfNotExists
| InsertUrl (unique_id original_url : string) (user_id : Z) (user_name : string)
| SelectOriginalUrl (unique_id : string)
| UpdateClickCount (unique_id : string)
| SelectCount
| SelectSumClicks
| SelectTop5.

Inductive effect :=
| Connect
| Execute (q : sql)
| Commit
| Close
| Log (l : level) (msg : string)
| TimeTime
| ReplyText (text : string) (reply_markup : option InlineKeyboardMarkup)
| Answer
| EditMessageText (text : string).

(** An effect that touches the Link Store. *)
Definition is_store_effect (e : effect) : bool :=
  match e with
  | Connect | Execute _ | Commit | Close => true
  | _ => false
  end.

(** The world a handler runs in: the table on disk, the open
    connection's working copy, and the two clock readings. *)
Record world := mkWorld {
  disk : table;
  conn : table;
  time_now : string;
  sql_now : string
}.

(** State over [world], with the journal of effects written out. *)
Definition M (A : Type) : Type := world -> A * world * list effect.

Definition ret {A} (a : A) : M A := fun w => (a, w, []).

Definition bind {A B} (m : M A) (f : A -> M B) : M B :=
  fun w =>
    let '(a, w1, j1) := m w in
    let '(b, w2, j2) := f a w1 in
    (b, w2, j1 ++ j2).

Declare Scope py_scope.
Delimit Scope py_scope with py.
Notation "x <- m ;; k" := (bind m (fun x => k))
  (at level 61, m at next level, right associativity) : py_scope.
Notation "m ;; k" := (bind m (fun _ => k))
  (at level 61, right associativity) : py_scope.
Local Open Scope py_scope.

Definition emit (e : effect) : M unit := fun w => (tt, w, [e]).

(** *** logging *)
Definition logger_info (msg : string) : M unit := emit (Log INFO msg).
Definition logger_error (msg : string) : M unit := emit (Log ERROR msg).

(** *** time *)
Definition time_time : M string :=
  fun w => (time_now w, w, [TimeTime]).

(** *** sqlite3 *)
Module sqlite3.

Inductive outcome := Ok | IntegrityError.

Definition connect : M unit :=
  fun w => (tt, mkWorld (disk w) (disk w) (time_now w) (sql_now w),
            [Connect]).

Definition commit : M unit :=
  fun w => (tt, mkWorld (conn w) (conn w) (time_now w) (sql_now w),
            [Commit]).

(** Closing discards what was not committed. *)
Definition close : M unit :=
  fun w => (tt, mkWorld (disk w) (disk w) (time_now w) (sql_now w),
            [Close]).

Definition with_conn (w : world) (t : table) : world :=
  mkWorld (disk w) t (time_now w) (sql_now w).

(** [INSERT INTO urls (unique_id, original_url, user_id, user_name)
    VALUES (?, ?, ?, ?)]: the UNIQUE constraint on [unique_id] raises
    [IntegrityError]; the other columns take their defaults. *)
Definition execute_insert (u url : string) (uid : Z) (uname : string)
  : M outcome :=
  fun w =>
    let q := Execute (InsertUrl u url uid uname) in
    if existsb (has_unique_id u) (conn w) then (IntegrityError, w, [q])
    else
      let r := mkRow (next_rowid (conn w)) u url (sql_now w)
                     click_count_default uid uname in
      (Ok, with_conn w (conn w ++ [r]), [q]).

(** [SELECT original_url FROM urls WHERE unique_id = ?] and
    [fetchone()]: the first matching row as a 1-tuple, or [None]. *)
Definition execute_select_original_url (u : string) : M (option string) :=
  fun w =>
    (option_map original_url (find (has_unique_id u) (conn w)), w,
     [Execute (SelectOriginalUrl u)]).

(** [UPDATE urls SET click_count = click_count + 1 WHERE unique_id = ?] *)
Definition execute_update_click_count (u : string) : M unit :=
  fun w =>
    (tt,
     with_conn w
       (map (fun r => if has_unique_id u r then bump r else r) (conn w)),
     [Execute (UpdateClickCount u)]).

(** [SELECT COUNT( * ) FROM urls] *)
Definition execute_count : M Z :=
  fun w => (Z.of_nat (length (conn w)), w, [Execute SelectCount]).

(** [SELECT SUM(click_count) FROM urls]: NULL over no rows. *)
Definition execute_sum : M (option Z) :=
  fun w =>
    (match conn w with
     | [] => None
     | _ => Some (fold_right Z.add 0 (map click_count (conn w)))
     end, w, [Execute SelectSumClicks]).

(** Insertion into a list ordered by [click_count] descending; equal
    counts keep their table order. *)
Fixpoint insert_desc (r : row) (l : list row) : list row :=
  match l with
  | [] => [r]
  | x :: rest =>
      if click_count x <=? click_count r then r :: l
      else x :: insert_desc r rest
  end.

(** [ORDER BY click_count DESC] *)
Definition order_by_click_count_desc (t : table) : list row :=
  fold_right insert_desc [] t.

(** [SELECT original_url, click_count FROM urls
    ORDER BY click_count DESC LIMIT 5] and [fetchall()]. *)
Definition execute_top5 : M (list (string * Z)) :=
  fun w =>
    (map (fun r => (original_url r, click_count r))
         (firstn 5 (order_by_click_count_desc (conn w))),
     w, [Execute SelectTop5]).

End sqlite3.

(* ===================================================================== *)
(** ** bot.py: database functions *)
(* ===================================================================== *)

Import sqlite3.

(** [init_db()].  A database file without the table is the empty table,
    so [CREATE TABLE IF NOT EXISTS] leaves the rows as they are. *)
Definition init_db : M unit :=
  connect ;;
  emit (Execute CreateTableIfNotExists) ;;
  commit ;;
  close ;;
  logger_info "Database initialized successfully".

(** [store_url_mapping(unique_id, original_url, user_id, user_name)]:
    try / except sqlite3.IntegrityError / finally. *)
Definition store_url_mapping (unique_id original_url : string)
    (user_id : Z) (user_name : string) : M unit :=
  connect ;;
  r <- execute_insert unique_id original_url user_id user_name ;;
  match r with
  | Ok =>
      commit ;;
      logger_info
        ("Stored URL mapping: " ++ unique_id ++ " -> " ++ original_url)%string
  | IntegrityError =>
      logger_error ("Duplicate unique_id: " ++ unique_id)%string
  end ;;
  close.

(** [get_original_url(unique_id)].  [result] is a 1-tuple or [None]; a
    1-tuple is true whatever it holds. *)
Definition get_original_url (unique_id : string) : M (option string) :=
  connect ;;
  result <- execute_select_original_url unique_id ;;
  original_url <-
    match result with
    | Some result_0 =>
        execute_update_click_count unique_id ;;
        commit ;;
        ret (Some result_0)
    | None => ret None
    end ;;
  close ;;
  ret original_url.

(** The dictionary [get_stats] returns. *)
Record stats := mkStats {
  total_urls : Z;
  total_clicks : Z;
  top_urls : list (string * Z)
}.

(** [x or 0] for the result of SUM: NULL and 0 both give 0. *)
Definition or_zero (x : option Z) : Z :=
  match x with
  | Some v => if v =? 0 then 0 else v
  | None => 0
  end.

(** [get_stats()] *)
Definition get_stats : M stats :=
  connect ;;
  total_urls <- execute_count ;;
  sum <- execute_sum ;;
  let total_clicks := or_zero sum in
  top_urls <- execute_top5 ;;
  close ;;
  ret (mkStats total_urls total_clicks top_urls).

(* ===================================================================== *)
(** ** bot.py: helper functions *)
(* ===================================================================== *)

(** [generate_unique_id(url)]:
    [hashlib.md5(f"{url}_{time.time()}".encode()).hexdigest()] *)
Definition generate_unique_id (url : string) : M string :=
  now <- time_time ;;
  let unique_string := (url ++ "_" ++ now)%string in
  ret (MD5.hexdigest (PyStr.encode unique_string)).

(* ===================================================================== *)
(** ** bot.py: handlers *)
(* ===================================================================== *)

(** What a handler reads from [update] and [context]. *)
Record Update := mkUpdate {
  effective_user : User.t;
  message_text : string;      (* update.message.text *)
  callback_data : string      (* update.callback_query.data *)
}.

Record Context := mkContext {
  args : list string;         (* context.args *)
  bot_username : string       (* context.bot.username *)
}.

Definition nl : string := String (ascii_of_nat 10) EmptyString.

(** [update.message.reply_text(text, reply_markup=..., parse_mode=...)] *)
Definition reply_text (text : string)
    (reply_markup : option InlineKeyboardMarkup) : M unit :=
  emit (ReplyText text reply_markup).

Definition invalid_link_text : string :=
  "❌ This link is no longer valid or has expired.".

Definition welcome_message (first_name : string) : string :=
  ("👋 Hello " ++ first_name ++ "!" ++ nl ++ nl
   ++ "I'm a URL sharing bot. "
   ++ "Only the admin can generate shareable Telegram links." ++ nl ++ nl
   ++ "🔗 *How to use:*" ++ nl
   ++ "1. Click on a link shared by the admin" ++ nl
   ++ "2. You'll be directed to the URL" ++ nl ++ nl
   ++ "Contact the admin if you need to share a URL.")%string.

(** [if original_url:] is false for [None] and for the empty string. *)
Definition if_truthy (x : option string) : option string :=
  match x with
  | Some s => if PyStr.truthy s then Some s else None
  | None => None
  end.

(** [start(update, context)] *)
Definition start (update : Update) (context : Context) : M unit :=
  let user := effective_user update in
  match args context with
  | unique_id :: _ =>
      original_url <- get_original_url unique_id ;;
      match if_truthy original_url with
      | Some original_url =>
          let keyboard := [[mkButton "🌐 Open URL" original_url]] in
          reply_text
            ("🔗 Here's your requested link:" ++ nl ++ nl ++ original_url)%string
            (Some keyboard) ;;
          logger_info
            ("User " ++ PyStr.str_of_int (User.id user)
             ++ " accessed URL via deep link: " ++ original_url)%string
      | None => reply_text invalid_link_text None
      end
  | [] => reply_text (welcome_message (User.first_name user)) None
  end.

Definition help_message : string :=
  ("🤖 *URL Sharing Bot Help*" ++ nl ++ nl
   ++ "I generate Telegram deep links for URLs." ++ nl ++ nl
   ++ "🔗 *How to use:*" ++ nl
   ++ "• Only the admin can generate links" ++ nl
   ++ "• Click on links shared by the admin" ++ nl
   ++ "• You'll be directed to the URL" ++ nl ++ nl
   ++ "📋 *Supported URLs:*" ++ nl
   ++ "• Website links" ++ nl
   ++ "• YouTube videos" ++ nl
   ++ "• Social media posts" ++ nl
   ++ "• Any valid URL" ++ nl ++ nl
   ++ "🛠 *Commands:*" ++ nl
   ++ "/start - Start the bot" ++ nl
   ++ "/help - Show this help message" ++ nl
   ++ "/stats - Show statistics (admin only)")%string.

(** [help_command(update, context)] *)
Definition help_command (update : Update) (context : Context) : M unit :=
  reply_text help_message None.

Definition admin_only_command_text : string := "🚫 *Admin only command.*".

(** [enumerate(l, 1)] *)
Definition enumerate1 {A} (l : list A) : list (Z * A) :=
  combine (map Z.of_nat (seq 1 (length l))) l.

(** One pass of the loop that lists the top URLs. *)
Definition stats_line (msg : string) (entry : Z * (string * Z)) : string :=
  let '(i, (url, clicks)) := entry in
  (msg ++ PyStr.str_of_int i ++ ". " ++ PyStr.str_of_int clicks
   ++ " clicks - " ++ PyStr.take_chars 50 url ++ "..." ++ nl)%string.

(** [stats_command(update, context)] *)
Definition stats_command (ADMIN_ID : Z) (update : Update) (context : Context)
  : M unit :=
  if negb (User.id (effective_user update) =? ADMIN_ID) then
    reply_text admin_only_command_text None
  else
    stats <- get_stats ;;
    let stats_message :=
      ("📊 *URL Statistics*" ++ nl ++ nl
       ++ "• Total URLs shortened: " ++ PyStr.str_of_int (total_urls stats) ++ nl
       ++ "• Total clicks: " ++ PyStr.str_of_int (total_clicks stats) ++ nl ++ nl
       ++ "🔝 *Top 5 Most Clicked URLs:*" ++ nl)%string in
    let stats_message :=
      fold_left stats_line (enumerate1 (top_urls stats)) stats_message in
    reply_text stats_message None.

Definition only_admin_text : string := "🚫 *Only the admin can generate links.*".

Definition invalid_url_text : string :=
  "❌ Please send a valid URL starting with http:// or https://".

(** [f"https://t.me/{bot_username}?start={unique_id}"] *)
Definition deep_link_of (bot_username unique_id : string) : string :=
  ("https://t.me/" ++ bot_username ++ "?start=" ++ unique_id)%string.

(** The share buttons under a generated link. *)
Definition share_keyboard (message_text deep_link : string)
  : InlineKeyboardMarkup :=
  [[mkButton "🔗 Open URL" message_text;
    mkButton "📤 Share Link" ("https://t.me/share/url?url=" ++ deep_link)%string]].

Definition result_message_of (message_text deep_link : string) : string :=
  ("✅ *Telegram Deep Link Generated*" ++ nl ++ nl
   ++ "🔗 *Your URL:*" ++ nl ++ "`" ++ message_text ++ "`" ++ nl ++ nl
   ++ "➡️ *Telegram Deep Link:*" ++ nl ++ "`" ++ deep_link ++ "`" ++ nl ++ nl
   ++ "📤 *Share this link with your users!*")%string.

(** [f"{user.first_name} {user.last_name or ''} (@{user.username or 'N/A'})"] *)
Definition user_name_of (user : User.t) : string :=
  (User.first_name user ++ " "
   ++ PyStr.or_default (User.last_name user) ""
   ++ " (@" ++ PyStr.or_default (User.username user) "N/A" ++ ")")%string.

(** [handle_url(update, context)] *)
Definition handle_url (ADMIN_ID : Z) (update : Update) (context : Context)
  : M unit :=
  let user := effective_user update in
  if negb (User.id user =? ADMIN_ID) then
    reply_text only_admin_text None
  else
    let message_text := message_text update in
    if negb (PyStr.startswith_any message_text ["http://"; "https://"]) then
      reply_text invalid_url_text None
    else
      unique_id <- generate_unique_id message_text ;;
      store_url_mapping unique_id message_text (User.id user)
                        (user_name_of user) ;;
      let bot_username := bot_username context in
      let deep_link := deep_link_of bot_username unique_id in
      let keyboard := share_keyboard message_text deep_link in
      let result_message := result_message_of message_text deep_link in
      reply_text result_message (Some keyboard) ;;
      logger_info
        ("Admin " ++ PyStr.str_of_int (User.id user)
         ++ " generated deep link for URL: " ++ message_text
         ++ " -> " ++ deep_link)%string.

(** The text [button_handler] shows for a URL. *)
Definition copied_message (url : string) : string :=
  ("📋 *URL Copied to Clipboard*" ++ nl ++ nl
   ++ "🔗 *URL:*" ++ nl ++ "`" ++ url ++ "`" ++ nl ++ nl
   ++ "📤 You can now paste this URL anywhere!")%string.

(** [button_handler(update, context)]: [query.answer()], then
    [query.edit_message_text(...)] for a payload that starts with
    [copy_]. *)
Definition button_handler (update : Update) (context : Context) : M unit :=
  let query_data := callback_data update in
  emit Answer ;;
  if PyStr.startswith query_data "copy_" then
    let url := PyStr.drop_chars 5 query_data in
    emit (EditMessageText (copied_message url))
  else ret tt.

(** The handlers registered in [main], by the kind of update each one
    receives. *)
Inductive kind := CommandStart | CommandHelp | CommandStats | Text | CallbackQuery.

Definition dispatch (ADMIN_ID : Z) (k : kind) (update : Update)
    (context : Context) : M unit :=
  match k with
  | CommandStart => start update context
  | CommandHelp => help_command update context
  | CommandStats => stats_command ADMIN_ID update context
  | Text => handle_url ADMIN_ID update context
  | CallbackQuery => button_handler update context
  end.

(* ===================================================================== *)
(** ** Running the program *)
(* ===================================================================== *)

(** The clock readings one call observes. *)
Record clocks := mkClocks {
  clock_time : string;   (* what time.time() renders to *)
  clock_sql : string     (* CURRENT_TIMESTAMP *)
}.

(** The world between two calls: no open connection ahead of the disk. *)
Definition idle (t : table) (c : clocks) : world :=
  mkWorld t t (clock_time c) (clock_sql c).

(** Run a computation on a table; the result is what is on disk after. *)
Definition run {A} (m : M A) (c : clocks) (t : table)
  : A * table * list effect :=
  let '(a, w, j) := m (idle t c) in (a, disk w, j).

Definition value_of {A} (x : A * table * list effect) : A := fst (fst x).
Definition table_of {A} (x : A * table * list effect) : table := snd (fst x).
Definition journal_of {A} (x : A * table * list effect) : list effect := snd x.

(** *** Link Store operations *)

Inductive op :=
| Create (unique_id original_url : string) (user_id : Z) (user_name : string)
| Lookup (unique_id : string)
| Stats.

Inductive op_result :=
| Returned
| Looked (original_url : option string)
| Counted (s : stats).

Definition exec_op (o : op) : M op_result :=
  match o with
  | Create u url uid uname =>
      store_url_mapping u url uid uname ;; ret Returned
  | Lookup u => r <- get_original_url u ;; ret (Looked r)
  | Stats => s <- get_stats ;; ret (Counted s)
  end.

(** A history: operations with the clock readings each one observed. *)
Definition history := list (op * clocks).

Fixpoint final_table (h : history) (t : table) : table :=
  match h with
  | [] => t
  | (o, c) :: rest => final_table rest (table_of (run (exec_op o) c t))
  end.

(** Is this call a lookup of [u] that returned a URL? *)
Definition is_successful_lookup (u : string) (o : op) (r : op_result) : bool :=
  match o, r with
  | Lookup u', Looked (Some _) => String.eqb u' u
  | _, _ => false
  end.

(** The number of successful lookups of [u] along a history from [t]. *)
Fixpoint successful_lookups (u : string) (h : history) (t : table) : Z :=
  match h with
  | [] => 0
  | (o, c) :: rest =>
      let x := run (exec_op o) c t in
      (if is_successful_lookup u o (value_of x) then 1 else 0)
      + successful_lookups u rest (table_of x)
  end.

(** *** Inbound events *)

Record event := mkEvent {
  ev_kind : kind;
  ev_update : Update;
  ev_context : Context;
  ev_clocks : clocks
}.

Definition handle (ADMIN_ID : Z) (e : event) (t : table) : table :=
  table_of (run (dispatch ADMIN_ID (ev_kind e) (ev_update e) (ev_context e))
                (ev_clocks e) t).

Definition handle_all (ADMIN_ID : Z) (es : list event) (t : table) : table :=
  fold_left (fun t e => handle ADMIN_ID e t) es t.

(** *** Properties of tables *)

(** The UNIQUE constraint on [unique_id]. *)
Definition unique_ids (t : table) : Prop := NoDup (map unique_id t).

(** The URL stored under an identifier, if any. *)
Definition url_of (u : string) (t : table) : option string :=
  option_map original_url (find (has_unique_id u) t).

(** The click count stored under an identifier; 0 when there is none. *)
Definition clicks_of (u : string) (t : table) : Z :=
  match find (has_unique_id u) t with
  | Some r => click_count r
  | None => 0
  end.

(** Two rows that differ at most in [click_count]. *)
Definition same_record (r r' : row) : Prop :=
  id r' = id r /\ unique_id r' = unique_id r
  /\ original_url r' = original_url r /\ created_at r' = created_at r
  /\ user_id r' = user_id r /\ user_name r' = user_name r.

Definition is_hex_digit (a : ascii) : bool :=
  existsb (Ascii.eqb a) (list_ascii_of_string "0123456789abcdef").

(** The row an INSERT adds. *)
Definition inserted_row (t : table) (now_sql u url : string) (uid : Z)
    (uname : string) : row :=
  mkRow (next_rowid t) u url now_sql click_count_default uid uname.

(** The table after the UPDATE of [get_original_url]. *)
Definition bump_matching (u : string) (t : table) : table :=
  map (fun r => if has_unique_id u r then bump r else r) t.

Definition settled (w : world) (t : table) : world :=
  mkWorld t t (time_now w) (sql_now w).

(** Does the operation look up the identifier of this row? *)
Definition targets (o : op) (r : row) : bool :=
  match o with
  | Lookup u => has_unique_id u r
  | _ => false
  end.

(** Is the operation a create under an identifier already in the table? *)
Definition collides (o : op) (t : table) : bool :=
  match o with
  | Create u _ _ _ => existsb (has_unique_id u) t
  | _ => false
  end.

(** Rows in descending order of [click_count]. *)
Definition by_clicks_desc (a b : row) : Prop := click_count b <= click_count a.

(** The same order on the (url, clicks) pairs [get_stats] returns. *)
Definition by_snd_desc (a b : string * Z) : Prop := snd b <= snd a.

(** The pair SELECT keeps of a row. *)
Definition url_and_clicks (r : row) : string * Z :=
  (original_url r, click_count r).

(** The sum of the click counts of a table. *)
Definition sum_clicks (t : table) : Z :=
  fold_right Z.add 0 (map click_count t).

(** What one handler can do to the table: nothing, append one row under
    a new identifier, or count one click. *)
Inductive store_step (t : table) : table -> Prop :=
| step_same : store_step t t
| step_insert (r : row) :
    existsb (has_unique_id (unique_id r)) t = false ->
    store_step t (t ++ [r])
| step_bump (u : string) : store_step t (bump_matching u t).

(** The identifier [handle_url] generates for a text at a clock reading. *)
Definition unique_id_for (message_text now : string) : string :=
  MD5.hexdigest (PyStr.encode (message_text ++ "_" ++ now)%string).

(** The journal of [handle_url] after the store call. *)
Definition handle_url_replies (update : Update) (context : Context)
    (u : string) : list effect :=
  let deep_link := deep_link_of (bot_username context) u in
  [ReplyText (result_message_of (message_text update) deep_link)
             (Some (share_keyboard (message_text update) deep_link));
   Log INFO
       ("Admin " ++ PyStr.str_of_int (User.id (effective_user update))
        ++ " generated deep link for URL: " ++ message_text update
        ++ " -> " ++ deep_link)%string].

Definition is_reply (e : effect) : bool :=
  match e with
  | ReplyText _ _ => true
  | _ => false
  end.

(** *** Sample inputs *)

Definition sample_admin : User.t :=
  User.mk 1 "Ada" (Some "Lovelace") (Some "ada").

Definition sample_guest : User.t := User.mk 2 "Bob" None None.

Definition sample_context : Context := mkContext [] "linkbot".

Definition sample_clocks : clocks :=
  mkClocks "1700000000.123456" "2023-11-14 22:13:20".

Definition sample_update : Update :=
  mkUpdate sample_admin "https://example.com/a" "".

Definition sample_unique_id : string :=
  unique_id_for "https://example.com/a" "1700000000.123456".

(** A guest follows the deep link, then the admin asks for statistics. *)
Definition sample_later : list event :=
  [mkEvent CommandStart (mkUpdate sample_guest "" "")
           (mkContext [sample_unique_id] "linkbot") sample_clocks;
   mkEvent CommandStats (mkUpdate sample_admin "" "") sample_context
           sample_clocks].

Definition sample_row (clicks : Z) : row :=
  mkRow 1 "abc" "https://example.com/a" "2023-11-14 22:13:20" clicks 1 "Ada".

Definition sample_history : history :=
  [(Create "abc" "https://example.com/a" 1 "Ada", sample_clocks);
   (Lookup "abc", sample_clocks);
   (Lookup "zzz", sample_clocks);
   (Lookup "abc", sample_clocks);
   (Stats, sample_clocks)].

(** *** The rest of bot.py *)

(** [error_handler(update, context)]: logs [context.error]. *)
Definition error_handler (error : string) : M unit :=
  logger_error ("Exception while handling an update: " ++ error)%string.





(** *** The net effect of an update on the table *)

(** The identifier [handle_url] would generate for this update. *)
Definition event_unique_id (e : event) : string :=
  unique_id_for (message_text (ev_update e)) (clock_time (ev_clocks e)).

(** Is the update a text of the admin with a URL scheme whose identifier
    is not in the table yet? *)
Definition accepts (ADMIN_ID : Z) (e : event) (t : table) : bool :=
  match ev_kind e with
  | Text =>
      (User.id (effective_user (ev_update e)) =? ADMIN_ID)
      && PyStr.startswith_any (message_text (ev_update e))
                              ["http://"; "https://"]
      && negb (existsb (has_unique_id (event_unique_id e)) t)
  | _ => false
  end.

(** The row an accepted submission adds. *)
Definition submission_row (e : event) (t : table) : row :=
  inserted_row t (clock_sql (ev_clocks e)) (event_unique_id e)
               (message_text (ev_update e))
               (User.id (effective_user (ev_update e)))
               (user_name_of (effective_user (ev_update e))).

(** The identifier a [/start] update asks for. *)
Definition looked_up (e : event) : option string :=
  match ev_kind e with
  | CommandStart => hd_error (args (ev_context e))
  | _ => None
  end.

(** Does the handler of this update open the database? *)
Definition touches_store (ADMIN_ID : Z) (k : kind) (update : Update)
    (context : Context) : bool :=
  match k with
  | CommandStart => match args context with [] => false | _ => true end
  | CommandStats => User.id (effective_user update) =? ADMIN_ID
  | Text =>
      (User.id (effective_user update) =? ADMIN_ID)
      && PyStr.startswith_any (message_text update) ["http://"; "https://"]
  | CommandHelp | CallbackQuery => false
  end.

(** *** Properties of rows and strings *)

(** The string [generate_unique_id] hashes. *)
Definition unique_string_of (url now : string) : string :=
  (url ++ "_" ++ now)%string.

Definition has_underscore (s : string) : bool :=
  existsb (Ascii.eqb "_") (list_ascii_of_string s).

(** A byte below 128. *)
Definition is_ascii (a : ascii) : bool :=
  match a with
  | Ascii _ _ _ _ _ _ _ b7 => negb b7
  end.

Definition all_ascii (s : string) : bool :=
  forallb is_ascii (list_ascii_of_string s).

Definition has_scheme (url : string) : bool :=
  PyStr.startswith_any url ["http://"; "https://"].

(** A row as [handle_url] writes it for the admin. *)
Definition admin_row (ADMIN_ID : Z) (r : row) : Prop :=
  user_id r = ADMIN_ID /\ has_scheme (original_url r) = true.

(** An identifier as [generate_unique_id] makes it. *)
Definition md5_hex_id (u : string) : Prop :=
  String.length u = 32%nat
  /\ forallb is_hex_digit (list_ascii_of_string u) = true.

(** Rowids 1, 2, ..., n in table order. *)
Definition rowids_in_sequence (t : table) : Prop :=
  map id t = map Z.of_nat (seq 1 (length t)).

(** The header of the statistics message. *)
Definition stats_header (total_urls total_clicks : Z) : string :=
  ("📊 *URL Statistics*" ++ nl ++ nl
   ++ "• Total URLs shortened: " ++ PyStr.str_of_int total_urls ++ nl
   ++ "• Total clicks: " ++ PyStr.str_of_int total_clicks ++ nl ++ nl
   ++ "🔝 *Top 5 Most Clicked URLs:*" ++ nl)%string.

(** The rows [get_stats] lists. *)
Definition top5 (t : table) : list (string * Z) :=
  map url_and_clicks (firstn 5 (order_by_click_count_desc t)).

(** *** Histories *)

(** The URL of the first create under [u] in a history. *)
Fixpoint first_created (u : string) (h : history) : option string :=
  match h with
  | [] => None
  | (Create u' url _ _, _) :: rest =>
      if String.eqb u' u then Some url else first_created u rest
  | _ :: rest => first_created u rest
  end.

Definition is_commit (e : effect) : bool :=
  match e with
  | Commit => true
  | _ => false
  end.

(** Did this call store a mapping (the INSERT was committed)? *)
Definition is_stored_create (o : op) (j : list effect) : bool :=
  match o with
  | Create _ _ _ _ => existsb is_commit j
  | _ => false
  end.

(** Did this call return a URL? *)
Definition is_served_lookup (o : op) (r : op_result) : bool :=
  match o, r with
  | Lookup _, Looked (Some _) => true
  | _, _ => false
  end.

(** The number of creates that stored a mapping along a history. *)
Fixpoint stored_creates (h : history) (t : table) : Z :=
  match h with
  | [] => 0
  | (o, c) :: rest =>
      let x := run (exec_op o) c t in
      (if is_stored_create o (journal_of x) then 1 else 0)
      + stored_creates rest (table_of x)
  end.

(** The number of lookups that returned a URL along a history. *)
Fixpoint served_lookups (h : history) (t : table) : Z :=
  match h with
  | [] => 0
  | (o, c) :: rest =>
      let x := run (exec_op o) c t in
      (if is_served_lookup o (value_of x) then 1 else 0)
      + served_lookups rest (table_of x)
  end.

(** *** More sample inputs *)

Definition sample_start (u : string) : event :=
  mkEvent CommandStart (mkUpdate sample_guest "" "")
          (mkContext [u] "linkbot") sample_clocks.

Definition sample_submission : event :=
  mkEvent Text sample_update sample_context sample_clocks.

Definition sample_stored_row (clicks : Z) : row :=
  mkRow 1 sample_unique_id "https://example.com/a" "2023-11-14 22:13:20"
        clicks 1 "Ada Lovelace (@ada)".

(** The lines of the statistics message, one per listed URL. *)
Definition stats_listing (top : list (string * Z)) : string :=
  fold_right (fun entry rest => (stats_line "" entry ++ rest)%string)
             "" (enumerate1 top).

(** The effects of [start] after the lookup. *)
Definition start_replies (user : User.t) (original_url : option string)
  : list effect :=
  match if_truthy original_url with
  | Some url =>
      [ReplyText ("🔗 Here's your requested link:" ++ nl ++ nl ++ url)%string
                 (Some [[mkButton "🌐 Open URL" url]]);
       Log INFO ("User " ++ PyStr.str_of_int (User.id user)
                 ++ " accessed URL via deep link: " ++ url)%string]
  | None => [ReplyText invalid_link_text None]
  end.

(** Is the update a [/start] for [u] while [u] is in the table? *)
Definition served_start (u : string) (e : event) (t : table) : bool :=
  match looked_up e with
  | Some u' => String.eqb u' u && existsb (has_unique_id u) t
  | None => false
  end.

(** The number of such updates along a run. *)
Fixpoint served_starts (ADMIN_ID : Z) (u : string) (es : list event)
    (t : table) : Z :=
  match es with
  | [] => 0
  | e :: rest =>
      (if served_start u e t then 1 else 0)
      + served_starts ADMIN_ID u rest (handle ADMIN_ID e t)
  end.

(* ===================================================================== *)
(** ** Checks on concrete inputs *)
(* ===================================================================== *)

Example md5_empty :
  MD5.hexdigest (PyStr.encode "") = "d41d8cd98f00b204e9800998ecf8427e".
Proof. vm_compute. reflexivity. Qed.

Example md5_abc :
  MD5.hexdigest (PyStr.encode "abc") = "900150983cd24fb0d6963f7d28e17f72".
Proof. vm_compute. reflexivity. Qed.

Example md5_long :
  MD5.hexdigest (PyStr.encode
    "12345678901234567890123456789012345678901234567890123456789012345678901234567890")
  = "57edf4a22be3c955ac49da2e2107b67a".
Proof. vm_compute. reflexivity. Qed.

Example str_of_int_examples :
  PyStr.str_of_int 0 = "0" /\ PyStr.str_of_int 42 = "42"
  /\ PyStr.str_of_int (-7) = "-7".
Proof. vm_compute. repeat split. Qed.

Example take_chars_ascii : PyStr.take_chars 3 "abcdef" = "abc".
Proof. reflexivity. Qed.

Example take_chars_utf8 : PyStr.take_chars 2 "❌é-x" = "❌é".
Proof. reflexivity. Qed.

Example drop_chars_utf8 : PyStr.drop_chars 2 "❌é-x" = "-x".
Proof. reflexivity. Qed.

Example drop_chars_ascii : PyStr.drop_chars 5 "copy_http://x" = "http://x".
Proof. reflexivity. Qed.

Example md5_utf8 :
  MD5.hexdigest (PyStr.encode "❌é-x") = "19eda216cc444b6cc5b29ede4b503fa2".
Proof. vm_compute. reflexivity. Qed.

Example sample_unique_id_value :
  sample_unique_id = "5a3f993ce483c42d8599f49b95fedc74".
Proof. vm_compute. reflexivity. Qed.

Example init_db_keeps_rows :
  table_of (run init_db sample_clocks [sample_row 4]) = [sample_row 4].
Proof. reflexivity. Qed.

(** The admin submits a URL; two guests follow the deep link. *)
Example two_clicks :
  let t1 := table_of (run (handle_url 1 sample_update sample_context)
                          sample_clocks []) in
  let go := mkEvent CommandStart (mkUpdate sample_guest "" "")
                    (mkContext [sample_unique_id] "linkbot") sample_clocks in
  map click_count t1 = [0]
  /\ map click_count (handle_all 1 [go] t1) = [1]
  /\ map click_count (handle_all 1 [go; go] t1) = [2]
  /\ journal_of (run (start (ev_update go) (ev_context go)) sample_clocks t1)
     = [Connect; Execute (SelectOriginalUrl sample_unique_id);
        Execute (UpdateClickCount sample_unique_id); Commit; Close;
        ReplyText
          ("🔗 Here's your requested link:" ++ nl ++ nl
           ++ "https://example.com/a")%string
          (Some [[mkButton "🌐 Open URL" "https://example.com/a"]]);
        Log INFO "User 2 accessed URL via deep link: https://example.com/a"].
Proof. vm_compute. repeat split. Qed.

Example stats_for_admin :
  journal_of (run (stats_command 1 (mkUpdate sample_admin "" "") sample_context)
                  sample_clocks
                  [sample_row 3;
                   mkRow 2 "def" "https://example.org/b" "" 7 1 "Ada"])
  = [Connect; Execute SelectCount; Execute SelectSumClicks;
     Execute SelectTop5; Close;
     ReplyText
       ("📊 *URL Statistics*" ++ nl ++ nl
        ++ "• Total URLs shortened: 2" ++ nl
        ++ "• Total clicks: 10" ++ nl ++ nl
        ++ "🔝 *Top 5 Most Clicked URLs:*" ++ nl
        ++ "1. 7 clicks - https://example.org/b..." ++ nl
        ++ "2. 3 clicks - https://example.com/a..." ++ nl)%string
       None].
Proof. vm_compute. reflexivity. Qed.



(* ===================================================================== *)
(** ** What the database functions do to a world *)
(* ===================================================================== *)

Lemma store_url_mapping_fresh u url uid un w :
  existsb (has_unique_id u) (disk w) = false ->
  store_url_mapping u url uid un w =
    (tt,
     settled w (disk w ++ [inserted_row (disk w) (sql_now w) u url uid un]),
     [Connect; Execute (InsertUrl u url uid un); Commit;
      Log INFO ("Stored URL mapping: " ++ u ++ " -> " ++ url)%string; Close]).
Proof.
  intros H. unfold store_url_mapping, bind, connect, execute_insert. simpl.
  rewrite H. reflexivity.
Qed.

Lemma store_url_mapping_duplicate u url uid un w :
  existsb (has_unique_id u) (disk w) = true ->
  store_url_mapping u url uid un w =
    (tt, settled w (disk w),
     [Connect; Execute (InsertUrl u url uid un);
      Log ERROR ("Duplicate unique_id: " ++ u)%string; Close]).
Proof.
  intros H. unfold store_url_mapping, bind, connect, execute_insert. simpl.
  rewrite H. reflexivity.
Qed.

Lemma get_original_url_found u r w :
  find (has_unique_id u) (disk w) = Some r ->
  get_original_url u w =
    (Some (original_url r), settled w (bump_matching u (disk w)),
     [Connect; Execute (SelectOriginalUrl u); Execute (UpdateClickCount u);
      Commit; Close]).
Proof.
  intros H. unfold get_original_url, bind, connect,
    execute_select_original_url. simpl. rewrite H. reflexivity.
Qed.

Lemma get_original_url_missing u w :
  find (has_unique_id u) (disk w) = None ->
  get_original_url u w =
    (None, settled w (disk w),
     [Connect; Execute (SelectOriginalUrl u); Close]).
Proof.
  intros H. unfold get_original_url, bind, connect,
    execute_select_original_url. simpl. rewrite H. reflexivity.
Qed.

Lemma get_stats_spec w :
  get_stats w =
    (mkStats (Z.of_nat (length (disk w)))
             (or_zero (match disk w with
                       | [] => None
                       | _ => Some (fold_right Z.add 0 (map click_count (disk w)))
                       end))
             (map (fun r => (original_url r, click_count r))
                  (firstn 5 (order_by_click_count_desc (disk w)))),
     settled w (disk w),
     [Connect; Execute SelectCount; Execute SelectSumClicks;
      Execute SelectTop5; Close]).
Proof. reflexivity. Qed.

Lemma settled_idle t c : settled (idle t c) t = idle t c.
Proof. reflexivity. Qed.

Lemma find_none_existsb {A} (f : A -> bool) (l : list A) :
  find f l = None <-> existsb f l = false.
Proof.
  induction l as [| x l IH]; simpl; [tauto |].
  destruct (f x); simpl; [split; discriminate | exact IH].
Qed.

Lemma find_some_existsb {A} (f : A -> bool) (l : list A) (x : A) :
  find f l = Some x -> existsb f l = true.
Proof.
  intros H. destruct (existsb f l) eqn:E; [reflexivity |].
  apply find_none_existsb in E. congruence.
Qed.

(* ===================================================================== *)
(** ** Identifier generation *)
(* ===================================================================== *)

Lemma le_bytes_length count x : length (MD5.le_bytes count x) = count.
Proof. unfold MD5.le_bytes. now rewrite length_map, length_seq. Qed.

Lemma le_bytes_range count x :
  Forall (fun b => 0 <= b < 256) (MD5.le_bytes count x).
Proof.
  unfold MD5.le_bytes. apply Forall_forall. intros b Hb.
  apply in_map_iff in Hb. destruct Hb as [k [<- _]].
  change 255 with (Z.ones 8). rewrite Z.land_ones by lia.
  apply Z.mod_pos_bound. reflexivity.
Qed.

Lemma digest_length msg : length (MD5.digest msg) = 16%nat.
Proof.
  unfold MD5.digest, MD5.digest_of_state.
  now rewrite !length_app, !le_bytes_length.
Qed.

Lemma digest_range msg : Forall (fun b => 0 <= b < 256) (MD5.digest msg).
Proof.
  unfold MD5.digest, MD5.digest_of_state.
  repeat (apply Forall_app; split); apply le_bytes_range.
Qed.

Lemma hex_of_bytes_length bs :
  String.length (MD5.hex_of_bytes bs) = (2 * length bs)%nat.
Proof. induction bs as [| b bs IH]; simpl; [reflexivity | rewrite IH; lia]. Qed.

Lemma hexchar_is_hex n : is_hex_digit (MD5.hexchar n) = true.
Proof.
  unfold MD5.hexchar.
  destruct n as [| p | p]; [reflexivity | | reflexivity].
  do 4 (destruct p as [p | p |]; try reflexivity).
Qed.

Lemma hex_of_bytes_is_hex bs :
  forallb is_hex_digit (list_ascii_of_string (MD5.hex_of_bytes bs)) = true.
Proof.
  induction bs as [| b bs IH]; [reflexivity |].
  cbn [MD5.hex_of_bytes list_ascii_of_string forallb].
  now rewrite !hexchar_is_hex, IH.
Qed.

(** C9: for every URL and clock reading, [generate_unique_id] returns the
    lowercase hexadecimal rendering of the MD5 digest of the URL, an
    underscore and the rendered [time.time()] reading; the digest has 16
    bytes (128 bits) and the identifier is 32 hexadecimal characters.
    The world is left as it was. *)
Theorem C9_generate_unique_id_is_md5_hex (url : string) (w : world) :
  let x := generate_unique_id url w in
  let digest := MD5.digest (PyStr.encode (url ++ "_" ++ time_now w)%string) in
  fst (fst x) = MD5.hex_of_bytes digest
  /\ snd (fst x) = w
  /\ length digest = 16%nat
  /\ Forall (fun b => 0 <= b < 256) digest
  /\ String.length (fst (fst x)) = 32%nat
  /\ forallb is_hex_digit (list_ascii_of_string (fst (fst x))) = true.
Proof.
  cbn zeta. unfold generate_unique_id, bind, time_time, ret, MD5.hexdigest.
  cbn [fst snd].
  split; [reflexivity |]. split; [reflexivity |].
  split; [apply digest_length |]. split; [apply digest_range |].
  split.
  - rewrite hex_of_bytes_length, digest_length. reflexivity.
  - apply hex_of_bytes_is_hex.
Qed.

(* ===================================================================== *)
(** ** Access control and validation in the handlers *)
(* ===================================================================== *)

(** C2: for a sender other than the admin, [handle_url] (whatever the
    message text) and [stats_command] leave the world as it is, perform no
    store effect at all, and send exactly one reply, the fixed refusal
    text of the handler. *)
Theorem C2_non_admin_is_refused
    (ADMIN_ID : Z) (update : Update) (context : Context) (w : world) :
  User.id (effective_user update) <> ADMIN_ID ->
  handle_url ADMIN_ID update context w
    = (tt, w, [ReplyText only_admin_text None])
  /\ stats_command ADMIN_ID update context w
    = (tt, w, [ReplyText admin_only_command_text None])
  /\ existsb is_store_effect (snd (handle_url ADMIN_ID update context w))
    = false
  /\ existsb is_store_effect (snd (stats_command ADMIN_ID update context w))
    = false.
Proof.
  intros Hne. apply Z.eqb_neq in Hne.
  unfold handle_url, stats_command. rewrite Hne. cbn.
  repeat split.
Qed.

Lemma C2_non_admin_is_refused_witness :
  handle_url 1 (mkUpdate sample_guest "https://example.com/a" "")
             sample_context (idle [] sample_clocks)
  = (tt, idle [] sample_clocks, [ReplyText only_admin_text None]).
Proof.
  apply (C2_non_admin_is_refused 1
           (mkUpdate sample_guest "https://example.com/a" "")
           sample_context (idle [] sample_clocks)).
  simpl. lia.
Defined.

(** C8: for the admin, a message text that starts with neither [http://]
    nor [https://] gets the validation reply and nothing else happens:
    the clock is not read (no identifier is generated), no SQL statement
    is executed and the world is unchanged. *)
Theorem C8_admin_text_without_scheme_is_rejected
    (ADMIN_ID : Z) (update : Update) (context : Context) (w : world) :
  User.id (effective_user update) = ADMIN_ID ->
  PyStr.startswith (message_text update) "http://" = false ->
  PyStr.startswith (message_text update) "https://" = false ->
  handle_url ADMIN_ID update context w
    = (tt, w, [ReplyText invalid_url_text None]).
Proof.
  intros Hadmin H1 H2. apply Z.eqb_eq in Hadmin.
  unfold handle_url, PyStr.startswith_any. rewrite Hadmin.
  cbn [negb existsb]. rewrite H1, H2. reflexivity.
Qed.

Lemma C8_admin_text_without_scheme_is_rejected_witness :
  handle_url 1 (mkUpdate sample_admin "ftp://example.com/a" "")
             sample_context (idle [] sample_clocks)
  = (tt, idle [] sample_clocks, [ReplyText invalid_url_text None]).
Proof.
  apply (C8_admin_text_without_scheme_is_rejected 1
           (mkUpdate sample_admin "ftp://example.com/a" "")
           sample_context (idle [] sample_clocks));
    reflexivity.
Defined.

(* ===================================================================== *)
(** ** Callback queries *)
(* ===================================================================== *)

Lemma startswith_copy_drop data :
  PyStr.startswith data "copy_" = true ->
  data = ("copy_" ++ PyStr.drop_chars 5 data)%string.
Proof.
  unfold PyStr.startswith. intros H.
  do 5 (destruct data as [| ? data]; [discriminate H |];
        cbn [String.prefix] in H;
        match type of H with
        | (if ?d then _ else _) = true =>
            destruct d as [<- |]; [| discriminate H]
        end).
  reflexivity.
Qed.

(** C10: [button_handler] never touches the world.  It acknowledges the
    query; when the payload starts with [copy_] it then edits the message
    to show the payload without its first five characters, and for any
    other payload it does nothing more. *)
Theorem C10_button_handler_is_stateless
    (update : Update) (context : Context) (w : world) :
  button_handler update context w
    = (tt, w,
       Answer ::
       (if PyStr.startswith (callback_data update) "copy_"
        then [EditMessageText
                (copied_message (PyStr.drop_chars 5 (callback_data update)))]
        else []))
  /\ (PyStr.startswith (callback_data update) "copy_" = true ->
      callback_data update
      = ("copy_" ++ PyStr.drop_chars 5 (callback_data update))%string).
Proof.
  split.
  - unfold button_handler, bind, emit, ret.
    destruct (PyStr.startswith (callback_data update) "copy_"); reflexivity.
  - apply startswith_copy_drop.
Qed.

Lemma C10_button_handler_is_stateless_witness :
  button_handler (mkUpdate sample_guest "" "copy_https://example.com/a")
                 sample_context (idle [] sample_clocks)
  = (tt, idle [] sample_clocks,
     [Answer; EditMessageText (copied_message "https://example.com/a")])
  /\ "copy_https://example.com/a"
     = ("copy_" ++ PyStr.drop_chars 5 "copy_https://example.com/a")%string.
Proof.
  destruct (C10_button_handler_is_stateless
              (mkUpdate sample_guest "" "copy_https://example.com/a")
              sample_context (idle [] sample_clocks)) as [H1 H2].
  split; [exact H1 | apply H2; reflexivity].
Defined.

(* ===================================================================== *)
(** ** Link Store operations on a table *)
(* ===================================================================== *)

Lemma existsb_has_unique_id u t :
  existsb (has_unique_id u) t = true <-> In u (map unique_id t).
Proof.
  rewrite existsb_exists, in_map_iff. unfold has_unique_id.
  split.
  - intros [r [Hin Heq]]. exists r. apply String.eqb_eq in Heq. tauto.
  - intros [r [Heq Hin]]. exists r. split; [exact Hin |].
    apply String.eqb_eq. exact Heq.
Qed.

Lemma not_in_existsb u t :
  ~ In u (map unique_id t) -> existsb (has_unique_id u) t = false.
Proof.
  intros H. destruct (existsb (has_unique_id u) t) eqn:E; [| reflexivity].
  apply existsb_has_unique_id in E. contradiction.
Qed.

Lemma bump_matching_absent u t :
  existsb (has_unique_id u) t = false -> bump_matching u t = t.
Proof.
  unfold bump_matching. induction t as [| r t IH]; [reflexivity |].
  cbn [existsb map]. intros H. apply orb_false_iff in H as [H1 H2].
  rewrite H1, IH by exact H2. reflexivity.
Qed.

Lemma run_create_fresh u url uid un c t :
  existsb (has_unique_id u) t = false ->
  run (store_url_mapping u url uid un) c t =
    (tt, t ++ [inserted_row t (clock_sql c) u url uid un],
     [Connect; Execute (InsertUrl u url uid un); Commit;
      Log INFO ("Stored URL mapping: " ++ u ++ " -> " ++ url)%string; Close]).
Proof.
  intros H. unfold run. rewrite store_url_mapping_fresh by exact H.
  reflexivity.
Qed.

Lemma run_create_duplicate u url uid un c t :
  existsb (has_unique_id u) t = true ->
  run (store_url_mapping u url uid un) c t =
    (tt, t,
     [Connect; Execute (InsertUrl u url uid un);
      Log ERROR ("Duplicate unique_id: " ++ u)%string; Close]).
Proof.
  intros H. unfold run. rewrite store_url_mapping_duplicate by exact H.
  reflexivity.
Qed.

Lemma run_lookup_found u r c t :
  find (has_unique_id u) t = Some r ->
  run (get_original_url u) c t =
    (Some (original_url r), bump_matching u t,
     [Connect; Execute (SelectOriginalUrl u); Execute (UpdateClickCount u);
      Commit; Close]).
Proof.
  intros H. unfold run.
  rewrite (get_original_url_found u r) by exact H. reflexivity.
Qed.

Lemma run_lookup_missing u c t :
  find (has_unique_id u) t = None ->
  run (get_original_url u) c t =
    (None, t, [Connect; Execute (SelectOriginalUrl u); Close]).
Proof.
  intros H. unfold run. rewrite get_original_url_missing by exact H.
  reflexivity.
Qed.

Lemma run_lookup_unknown u c t :
  ~ In u (map unique_id t) ->
  run (get_original_url u) c t
    = (None, t, [Connect; Execute (SelectOriginalUrl u); Close]).
Proof.
  intros H. apply run_lookup_missing, find_none_existsb, not_in_existsb, H.
Qed.

Lemma table_after_create u url uid un c t :
  table_of (run (exec_op (Create u url uid un)) c t) =
    if existsb (has_unique_id u) t then t
    else t ++ [inserted_row t (clock_sql c) u url uid un].
Proof.
  unfold exec_op, run, bind, ret.
  destruct (existsb (has_unique_id u) t) eqn:E.
  - rewrite store_url_mapping_duplicate by exact E. reflexivity.
  - rewrite store_url_mapping_fresh by exact E. reflexivity.
Qed.

Lemma run_lookup u c t :
  value_of (run (exec_op (Lookup u)) c t) = Looked (url_of u t)
  /\ table_of (run (exec_op (Lookup u)) c t) = bump_matching u t.
Proof.
  unfold exec_op, run, bind, ret, url_of.
  destruct (find (has_unique_id u) t) as [r |] eqn:E.
  - rewrite (get_original_url_found u r) by exact E. split; reflexivity.
  - rewrite get_original_url_missing by exact E. split; [reflexivity |].
    cbn. symmetry. apply bump_matching_absent.
    apply find_none_existsb. exact E.
Qed.

Lemma table_after_stats c t : table_of (run (exec_op Stats) c t) = t.
Proof. reflexivity. Qed.

(** C7: looking up an identifier that no row carries returns [None];
    the only statement executed is the SELECT, nothing is committed, and
    the table is exactly what it was. *)
Theorem C7_lookup_of_unknown_id (u : string) (c : clocks) (t : table) :
  ~ In u (map unique_id t) ->
  run (get_original_url u) c t
    = (None, t, [Connect; Execute (SelectOriginalUrl u); Close]).
Proof.
  intros H. apply run_lookup_missing. apply find_none_existsb.
  apply not_in_existsb. exact H.
Qed.

(* ===================================================================== *)
(** ** The store is append-mostly *)
(* ===================================================================== *)

Lemma same_record_refl r : same_record r r.
Proof. unfold same_record. tauto. Qed.

Lemma same_record_bump r : same_record r (bump r).
Proof. unfold same_record, bump. cbn. tauto. Qed.

Lemma nth_error_bump_matching u t i :
  nth_error (bump_matching u t) i
  = option_map (fun r => if has_unique_id u r then bump r else r)
               (nth_error t i).
Proof. unfold bump_matching. apply nth_error_map. Qed.

(** C4: every Link Store operation keeps every row in its place.  A row
    present before create, lookup or stats is present after it at the same
    position with the same [id], [unique_id], [original_url],
    [created_at], [user_id] and [user_name]; its [click_count] is one more
    when the operation is a lookup of its identifier and is the same
    otherwise.  The table never shrinks, and a create under an identifier
    already in the table leaves the table as it was. *)
Theorem C4_store_is_append_mostly
    (o : op) (c : clocks) (t : table) (i : nat) (r : row) :
  nth_error t i = Some r ->
  (exists r',
      nth_error (table_of (run (exec_op o) c t)) i = Some r'
      /\ same_record r r'
      /\ click_count r' = click_count r + (if targets o r then 1 else 0))
  /\ (length t <= length (table_of (run (exec_op o) c t)))%nat
  /\ (collides o t = true -> table_of (run (exec_op o) c t) = t).
Proof.
  intros Hr. destruct o as [u url uid un | u |].
  - rewrite table_after_create. cbn [targets collides].
    destruct (existsb (has_unique_id u) t) eqn:E.
    + split; [| split; [lia | reflexivity]].
      exists r. split; [exact Hr |]. split; [apply same_record_refl | lia].
    + split; [| split; [rewrite length_app; lia | discriminate]].
      exists r. split; [| split; [apply same_record_refl | lia]].
      rewrite nth_error_app1; [exact Hr |].
      apply nth_error_Some. congruence.
  - destruct (run_lookup u c t) as [_ Ht]. rewrite Ht. cbn [targets collides].
    split; [| split; [unfold bump_matching; rewrite length_map; lia
                     | discriminate]].
    rewrite nth_error_bump_matching, Hr. cbn [option_map].
    destruct (has_unique_id u r).
    + exists (bump r). split; [reflexivity |].
      split; [apply same_record_bump | reflexivity].
    + exists r. split; [reflexivity |].
      split; [apply same_record_refl | lia].
  - rewrite table_after_stats. cbn [targets collides].
    split; [| split; [lia | discriminate]].
    exists r. split; [exact Hr |]. split; [apply same_record_refl | lia].
Qed.

(* ===================================================================== *)
(** ** Click accounting *)
(* ===================================================================== *)

Lemma map_unique_id_bump_matching u t :
  map unique_id (bump_matching u t) = map unique_id t.
Proof.
  unfold bump_matching. rewrite map_map. apply map_ext.
  intros r. destruct (has_unique_id u r); reflexivity.
Qed.

Lemma unique_ids_exec_op o c t :
  unique_ids t -> unique_ids (table_of (run (exec_op o) c t)).
Proof.
  unfold unique_ids. intros H. destruct o as [u url uid un | u |].
  - rewrite table_after_create.
    destruct (existsb (has_unique_id u) t) eqn:E; [exact H |].
    rewrite map_app. cbn [map inserted_row unique_id].
    apply NoDup_app; [exact H | repeat constructor; intros [] |].
    intros x Hx [<- | []]. apply existsb_has_unique_id in Hx. congruence.
  - destruct (run_lookup u c t) as [_ Ht]. rewrite Ht.
    rewrite map_unique_id_bump_matching. exact H.
  - rewrite table_after_stats. exact H.
Qed.

Lemma unique_ids_final_table h t :
  unique_ids t -> unique_ids (final_table h t).
Proof.
  revert t. induction h as [| [o c] h IH]; intros t H; [exact H |].
  cbn [final_table]. apply IH. apply unique_ids_exec_op. exact H.
Qed.

Lemma find_bump_matching u u' t :
  find (has_unique_id u) (bump_matching u' t)
  = option_map (fun r => if has_unique_id u' r then bump r else r)
               (find (has_unique_id u) t).
Proof.
  unfold bump_matching. induction t as [| r t IH]; [reflexivity |].
  cbn [map find].
  replace (has_unique_id u (if has_unique_id u' r then bump r else r))
    with (has_unique_id u r)
    by (destruct (has_unique_id u' r); reflexivity).
  destruct (has_unique_id u r); [reflexivity | exact IH].
Qed.

Lemma find_has_unique_id u t r :
  find (has_unique_id u) t = Some r -> unique_id r = u.
Proof.
  intros H. apply find_some in H as [_ H]. apply String.eqb_eq. exact H.
Qed.

Lemma find_app_fresh u t r :
  find (has_unique_id u) (t ++ [r])
  = match find (has_unique_id u) t with
    | Some x => Some x
    | None => if has_unique_id u r then Some r else None
    end.
Proof.
  induction t as [| x t IH]; cbn [app find].
  - destruct (has_unique_id u r); reflexivity.
  - destruct (has_unique_id u x); [reflexivity | exact IH].
Qed.

(** One operation changes the count under [u] by one exactly when it is a
    successful lookup of [u]. *)
Lemma clicks_of_exec_op u o c t :
  clicks_of u (table_of (run (exec_op o) c t))
  = clicks_of u t
    + (if is_successful_lookup u o (value_of (run (exec_op o) c t))
       then 1 else 0).
Proof.
  destruct o as [u' url uid un | u' |].
  - rewrite table_after_create.
    replace (is_successful_lookup u (Create u' url uid un)
               (value_of (run (exec_op (Create u' url uid un)) c t)))
      with false by reflexivity.
    destruct (existsb (has_unique_id u') t) eqn:E; [lia |].
    unfold clicks_of. rewrite find_app_fresh.
    destruct (find (has_unique_id u) t); [lia |].
    destruct (has_unique_id u _); cbn; unfold click_count_default; lia.
  - destruct (run_lookup u' c t) as [Hv Ht]. rewrite Hv, Ht.
    unfold clicks_of, url_of, is_successful_lookup.
    rewrite find_bump_matching.
    destruct (String.eqb u' u) eqn:Eu.
    + apply String.eqb_eq in Eu. subst u'.
      destruct (find (has_unique_id u) t) as [r |] eqn:Ef; cbn; [| lia].
      apply find_some in Ef as [_ Ef]. rewrite Ef. reflexivity.
    + destruct (find (has_unique_id u) t) as [r |] eqn:Ef; cbn.
      * apply find_has_unique_id in Ef. unfold has_unique_id.
        rewrite Ef, String.eqb_sym, Eu.
        destruct (find _ t); cbn; lia.
      * destruct (find (has_unique_id u') t); cbn; lia.
  - rewrite table_after_stats. cbn. lia.
Qed.

Lemma clicks_of_final_table u h t :
  clicks_of u (final_table h t) = clicks_of u t + successful_lookups u h t.
Proof.
  revert t. induction h as [| [o c] h IH]; intros t.
  - cbn. lia.
  - cbn [final_table successful_lookups]. rewrite IH, clicks_of_exec_op.
    lia.
Qed.

Lemma find_unique t r :
  unique_ids t -> In r t -> find (has_unique_id (unique_id r)) t = Some r.
Proof.
  unfold unique_ids. induction t as [| x t IH]; intros Hnd Hin; [destruct Hin |].
  cbn [map] in Hnd. inversion Hnd as [| ? ? Hx Hnd']; subst.
  cbn [find]. destruct (has_unique_id (unique_id r) x) eqn:E.
  - destruct Hin as [-> | Hin]; [reflexivity |].
    apply String.eqb_eq in E. exfalso. apply Hx. rewrite E.
    apply in_map. exact Hin.
  - destruct Hin as [-> | Hin].
    + unfold has_unique_id in E. rewrite String.eqb_refl in E. discriminate.
    + apply IH; assumption.
Qed.

Lemma clicks_of_absent u t : ~ In u (map unique_id t) -> clicks_of u t = 0.
Proof.
  intros H. unfold clicks_of.
  apply not_in_existsb, find_none_existsb in H. now rewrite H.
Qed.

(** C3: a create under a new identifier appends a row whose [click_count]
    is 0, and along any history of creates, lookups and stats, a row
    created during the history ends with a [click_count] equal to the
    number of lookups of its identifier that returned a URL. *)
Theorem C3_click_count_counts_successful_lookups
    (t : table) (h : history) (r : row)
    (u url : string) (uid : Z) (un : string) (c : clocks) :
  unique_ids t ->
  ~ In u (map unique_id t) ->
  In r (final_table h t) ->
  ~ In (unique_id r) (map unique_id t) ->
  (exists r0,
      table_of (run (exec_op (Create u url uid un)) c t) = t ++ [r0]
      /\ unique_id r0 = u /\ original_url r0 = url /\ click_count r0 = 0)
  /\ click_count r = successful_lookups (unique_id r) h t.
Proof.
  intros Hnd Hu Hin Hnew. split.
  - rewrite table_after_create, (not_in_existsb _ _ Hu).
    eexists. split; [reflexivity |]. cbn. tauto.
  - pose proof (clicks_of_final_table (unique_id r) h t) as H.
    rewrite (clicks_of_absent _ _ Hnew) in H.
    unfold clicks_of in H at 1.
    rewrite (find_unique _ _ (unique_ids_final_table h t Hnd) Hin) in H.
    lia.
Qed.

(* ===================================================================== *)
(** ** Statistics *)
(* ===================================================================== *)

Lemma insert_desc_perm r l : Permutation (insert_desc r l) (r :: l).
Proof.
  induction l as [| x l IH]; cbn [insert_desc]; [reflexivity |].
  destruct (click_count x <=? click_count r); [reflexivity |].
  rewrite IH. apply perm_swap.
Qed.

Lemma insert_desc_sorted r l :
  StronglySorted by_clicks_desc l ->
  StronglySorted by_clicks_desc (insert_desc r l).
Proof.
  induction l as [| x l IH]; intros Hs; cbn [insert_desc].
  - repeat constructor.
  - apply StronglySorted_inv in Hs as [Hs Hx].
    destruct (click_count x <=? click_count r) eqn:E.
    + apply Z.leb_le in E. constructor.
      * constructor; assumption.
      * constructor; [unfold by_clicks_desc; lia |].
        eapply Forall_impl; [| exact Hx].
        unfold by_clicks_desc. intros y Hy. lia.
    + apply Z.leb_gt in E. constructor; [apply IH; exact Hs |].
      eapply Permutation_Forall; [symmetry; apply insert_desc_perm |].
      constructor; [unfold by_clicks_desc; lia | exact Hx].
Qed.

Lemma order_by_perm t : Permutation (order_by_click_count_desc t) t.
Proof.
  unfold order_by_click_count_desc.
  induction t as [| r t IH]; cbn [fold_right]; [reflexivity |].
  rewrite insert_desc_perm. now constructor.
Qed.

Lemma order_by_sorted t :
  StronglySorted by_clicks_desc (order_by_click_count_desc t).
Proof.
  unfold order_by_click_count_desc.
  induction t as [| r t IH]; cbn [fold_right]; [constructor |].
  apply insert_desc_sorted. exact IH.
Qed.

Section SortedPrefix.
Context {A : Type} (R : A -> A -> Prop).

(** In a sorted list, everything in a prefix stands before everything
    in the rest. *)
Lemma sorted_app_split (l1 l2 : list A) :
  StronglySorted R (l1 ++ l2) ->
  StronglySorted R l1
  /\ Forall (fun y => Forall (fun x => R x y) l1) l2.
Proof.
  induction l1 as [| a l1 IH]; cbn [app]; intros Hs.
  - split; [constructor |]. apply Forall_forall. intros; constructor.
  - apply StronglySorted_inv in Hs as [Hs Ha].
    apply Forall_app in Ha as [Ha1 Ha2].
    destruct (IH Hs) as [IH1 IH2]. split; [constructor; assumption |].
    rewrite Forall_forall in *. intros y Hy. constructor; auto.
Qed.

Lemma sorted_firstn (n : nat) (l : list A) :
  StronglySorted R l ->
  StronglySorted R (firstn n l)
  /\ Forall (fun y => Forall (fun x => R x y) (firstn n l)) (skipn n l).
Proof.
  intros Hs. apply sorted_app_split. now rewrite firstn_skipn.
Qed.
End SortedPrefix.

Lemma sorted_map_url_and_clicks l :
  StronglySorted by_clicks_desc l ->
  StronglySorted by_snd_desc (map url_and_clicks l).
Proof.
  induction 1 as [| a l Hs IH Ha]; cbn [map]; constructor; [exact IH |].
  apply Forall_map. exact Ha.
Qed.

Lemma or_zero_some v : or_zero (Some v) = v.
Proof. cbn. destruct (v =? 0) eqn:E; [apply Z.eqb_eq in E; lia | reflexivity]. Qed.

Lemma run_get_stats c t :
  run get_stats c t
  = (mkStats (Z.of_nat (length t)) (sum_clicks t)
             (map url_and_clicks (firstn 5 (order_by_click_count_desc t))),
     t,
     [Connect; Execute SelectCount; Execute SelectSumClicks;
      Execute SelectTop5; Close]).
Proof.
  unfold run. rewrite get_stats_spec. cbn [idle disk settled].
  destruct t as [| r t]; [reflexivity |].
  rewrite or_zero_some. reflexivity.
Qed.

(** C6: for every table, [get_stats] changes nothing and returns
    [total_urls] equal to the number of rows, [total_clicks] equal to the
    sum of the click counts (0 for the empty table), and [top_urls] with
    at most 5 entries (5, or all rows when there are fewer), in
    descending order of clicks; the rows left out have no more clicks
    than any row listed. *)
Theorem C6_get_stats_totals_and_top5 (c : clocks) (t : table) :
  let s := value_of (run get_stats c t) in
  total_urls s = Z.of_nat (length t)
  /\ total_clicks s = sum_clicks t
  /\ value_of (run get_stats c []) = mkStats 0 0 []
  /\ (length (top_urls s) <= 5)%nat
  /\ length (top_urls s) = Nat.min 5 (length t)
  /\ StronglySorted by_snd_desc (top_urls s)
  /\ (exists rest,
         Permutation (map url_and_clicks t) (top_urls s ++ rest)
         /\ Forall (fun y => Forall (fun x => by_snd_desc x y) (top_urls s))
                   rest)
  /\ table_of (run get_stats c t) = t.
Proof.
  rewrite !run_get_stats. cbn [value_of table_of fst snd].
  cbn [total_urls total_clicks top_urls].
  pose proof (sorted_firstn by_clicks_desc 5 _ (order_by_sorted t))
    as [Hs Hrest].
  assert (Hlen : length (map url_and_clicks
                   (firstn 5 (order_by_click_count_desc t)))
                 = Nat.min 5 (length t)).
  { rewrite length_map, length_firstn.
    now rewrite (Permutation_length (order_by_perm t)). }
  split; [reflexivity |]. split; [reflexivity |]. split; [reflexivity |].
  split; [rewrite Hlen; apply Nat.le_min_l |]. split; [exact Hlen |].
  split; [apply sorted_map_url_and_clicks; exact Hs |].
  split; [| reflexivity].
  exists (map url_and_clicks (skipn 5 (order_by_click_count_desc t))).
  split.
  - rewrite <- map_app, firstn_skipn. apply Permutation_map.
    symmetry. apply order_by_perm.
  - apply Forall_map. eapply Forall_impl; [| exact Hrest].
    intros y Hy. apply Forall_map. exact Hy.
Qed.

(* ===================================================================== *)
(** ** Submitting a URL and resolving its deep link *)
(* ===================================================================== *)

(** An accepted submission: the clock is read, the identifier is hashed,
    the mapping is stored, and the reply is sent whatever the store did. *)
Lemma handle_url_accepted ADMIN_ID update context w :
  User.id (effective_user update) = ADMIN_ID ->
  PyStr.startswith_any (message_text update) ["http://"; "https://"] = true ->
  handle_url ADMIN_ID update context w =
    let u := unique_id_for (message_text update) (time_now w) in
    let x := store_url_mapping u (message_text update)
               (User.id (effective_user update))
               (user_name_of (effective_user update)) w in
    (tt, snd (fst x),
     TimeTime :: snd x ++ handle_url_replies update context u).
Proof.
  intros Hadmin Hscheme. apply Z.eqb_eq in Hadmin.
  unfold handle_url. rewrite Hadmin, Hscheme. cbn [negb].
  unfold generate_unique_id, time_time, ret, unique_id_for.
  unfold bind. cbv zeta.
  destruct (store_url_mapping _ _ _ _ w) as [[[] w'] j].
  reflexivity.
Qed.

Lemma value_get_original_url u c t :
  value_of (run (get_original_url u) c t) = url_of u t.
Proof.
  unfold url_of. destruct (find (has_unique_id u) t) as [r |] eqn:E.
  - rewrite (run_lookup_found u r) by exact E. reflexivity.
  - rewrite run_lookup_missing by exact E. reflexivity.
Qed.

Lemma table_get_original_url u c t :
  table_of (run (get_original_url u) c t) = bump_matching u t.
Proof.
  destruct (find (has_unique_id u) t) as [r |] eqn:E.
  - rewrite (run_lookup_found u r) by exact E. reflexivity.
  - rewrite run_lookup_missing by exact E. cbn. symmetry.
    apply bump_matching_absent, find_none_existsb, E.
Qed.

Lemma start_table update context c t :
  table_of (run (start update context) c t)
  = match args context with
    | u :: _ => bump_matching u t
    | [] => t
    end.
Proof.
  unfold start. destruct (args context) as [| u rest]; [reflexivity |].
  rewrite <- (table_get_original_url u c t).
  unfold run, bind.
  destruct (get_original_url u (idle t c)) as [[r w] j].
  destruct (if_truthy r); reflexivity.
Qed.

Lemma stats_command_table ADMIN_ID update context c t :
  table_of (run (stats_command ADMIN_ID update context) c t) = t.
Proof.
  unfold stats_command.
  destruct (negb (User.id (effective_user update) =? ADMIN_ID));
    reflexivity.
Qed.

Lemma handle_url_table ADMIN_ID update context c t :
  store_step t (table_of (run (handle_url ADMIN_ID update context) c t)).
Proof.
  destruct (User.id (effective_user update) =? ADMIN_ID) eqn:Ea.
  - destruct (PyStr.startswith_any (message_text update)
                ["http://"; "https://"]) eqn:Es.
    + apply Z.eqb_eq in Ea. unfold run.
      rewrite (handle_url_accepted _ _ _ _ Ea Es). cbv zeta.
      set (u := unique_id_for _ _).
      destruct (existsb (has_unique_id u) t) eqn:E.
      * rewrite store_url_mapping_duplicate by exact E. constructor.
      * rewrite store_url_mapping_fresh by exact E.
        apply (step_insert t (inserted_row t _ u _ _ _)). exact E.
    + unfold handle_url. rewrite Ea, Es. constructor.
  - unfold handle_url. rewrite Ea. constructor.
Qed.

Lemma handle_store_step ADMIN_ID e t : store_step t (handle ADMIN_ID e t).
Proof.
  unfold handle, dispatch. destruct (ev_kind e).
  - rewrite start_table. destruct (args (ev_context e)); constructor.
  - constructor.
  - rewrite stats_command_table. constructor.
  - apply handle_url_table.
  - unfold button_handler, run, bind, emit, ret.
    destruct (PyStr.startswith _ _); constructor.
Qed.

Lemma url_of_store_step u x t t' :
  store_step t t' -> url_of u t = Some x -> url_of u t' = Some x.
Proof.
  unfold url_of. intros Hstep H. destruct Hstep as [| r Hr | u'].
  - exact H.
  - rewrite find_app_fresh.
    destruct (find (has_unique_id u) t); [exact H | discriminate H].
  - rewrite find_bump_matching.
    destruct (find (has_unique_id u) t) as [r |]; [| discriminate H].
    cbn in *. destruct (has_unique_id u' r); exact H.
Qed.

Lemma url_of_handle_all ADMIN_ID u x es t :
  url_of u t = Some x -> url_of u (handle_all ADMIN_ID es t) = Some x.
Proof.
  unfold handle_all. revert t.
  induction es as [| e es IH]; intros t H; [exact H |].
  cbn [fold_left]. apply IH.
  eapply url_of_store_step; [apply handle_store_step | exact H].
Qed.

(** C1: when the admin sends a text that starts with [http://] or
    [https://] and the identifier generated for it is not yet in the
    table, [handle_url] answers with the deep link that carries that
    identifier, and from then on, whatever updates the bot handles in
    between, [get_original_url] of that identifier returns exactly the
    text that was sent. *)
Theorem C1_submitted_url_round_trips
    (ADMIN_ID : Z) (update : Update) (context : Context)
    (c : clocks) (t : table) (later : list event) (c' : clocks) :
  User.id (effective_user update) = ADMIN_ID ->
  PyStr.startswith_any (message_text update) ["http://"; "https://"] = true ->
  ~ In (unique_id_for (message_text update) (clock_time c))
       (map unique_id t) ->
  let u := unique_id_for (message_text update) (clock_time c) in
  let x := run (handle_url ADMIN_ID update context) c t in
  In (ReplyText
        (result_message_of (message_text update)
                           (deep_link_of (bot_username context) u))
        (Some (share_keyboard (message_text update)
                              (deep_link_of (bot_username context) u))))
     (journal_of x)
  /\ value_of (run (get_original_url u) c'
                   (handle_all ADMIN_ID later (table_of x)))
     = Some (message_text update).
Proof.
  intros Hadmin Hscheme Hfresh u x.
  apply not_in_existsb in Hfresh. fold u in Hfresh.
  assert (Hx : x = (tt,
                    t ++ [inserted_row t (clock_sql c) u (message_text update)
                            (User.id (effective_user update))
                            (user_name_of (effective_user update))],
                    TimeTime ::
                    [Connect;
                     Execute (InsertUrl u (message_text update)
                                (User.id (effective_user update))
                                (user_name_of (effective_user update)));
                     Commit;
                     Log INFO ("Stored URL mapping: " ++ u ++ " -> "
                               ++ message_text update)%string;
                     Close]
                    ++ handle_url_replies update context u)).
  { unfold x, run. rewrite (handle_url_accepted _ _ _ _ Hadmin Hscheme).
    cbv zeta. cbn [idle time_now]. fold u.
    rewrite store_url_mapping_fresh by exact Hfresh. reflexivity. }
  rewrite Hx. cbn [journal_of table_of fst snd]. split.
  - right. apply in_or_app. right. left. reflexivity.
  - rewrite value_get_original_url. apply url_of_handle_all.
    unfold url_of. rewrite find_app_fresh.
    apply find_none_existsb in Hfresh. rewrite Hfresh.
    unfold has_unique_id, inserted_row. cbn [unique_id original_url].
    rewrite String.eqb_refl. reflexivity.
Qed.

Lemma C1_submitted_url_round_trips_witness :
  value_of
    (run (get_original_url sample_unique_id) sample_clocks
         (handle_all 1 sample_later
            (table_of (run (handle_url 1 sample_update sample_context)
                           sample_clocks []))))
  = Some "https://example.com/a".
Proof.
  pose proof (C1_submitted_url_round_trips 1 sample_update sample_context
                sample_clocks [] sample_later sample_clocks
                eq_refl eq_refl (fun H => match H with end)) as H.
  cbv zeta in H. exact (proj2 H).
Defined.

(* ===================================================================== *)
(** ** Creating under an identifier that is taken *)
(* ===================================================================== *)

(** C5 (as amended): a create under an identifier that is already in the
    table inserts nothing and leaves the table as it was; the
    [IntegrityError] is caught inside [store_url_mapping], which writes
    the error log line naming the identifier, closes the connection and
    returns normally. *)
Theorem C5_duplicate_create_is_logged_and_dropped
    (u url : string) (uid : Z) (un : string) (c : clocks) (t : table) :
  In u (map unique_id t) ->
  run (store_url_mapping u url uid un) c t
    = (tt, t,
       [Connect; Execute (InsertUrl u url uid un);
        Log ERROR ("Duplicate unique_id: " ++ u)%string; Close]).
Proof.
  intros H. apply run_create_duplicate. apply existsb_has_unique_id. exact H.
Qed.

Lemma C5_duplicate_create_is_logged_and_dropped_witness :
  run (store_url_mapping "abc" "https://example.org/b" 1 "Ada")
      sample_clocks [sample_row 0]
  = (tt, [sample_row 0],
     [Connect; Execute (InsertUrl "abc" "https://example.org/b" 1 "Ada");
      Log ERROR "Duplicate unique_id: abc"; Close]).
Proof.
  apply (C5_duplicate_create_is_logged_and_dropped
           "abc" "https://example.org/b" 1 "Ada" sample_clocks
           [sample_row 0]).
  simpl. left. reflexivity.
Defined.

(** C5 (as stated) fails: a create under a taken identifier returns to
    its caller exactly what a successful create returns, the new URL is
    not stored, and [handle_url] sends the admin the same reply whether
    the create stored the mapping or hit a duplicate. *)
Lemma C5_duplicate_create_is_not_reported :
  let dup := run (store_url_mapping "abc" "https://example.org/b" 1 "Ada")
                 sample_clocks [sample_row 0] in
  let ok := run (store_url_mapping "abc" "https://example.org/b" 1 "Ada")
                sample_clocks [] in
  let first := run (handle_url 1 sample_update sample_context)
                   sample_clocks [] in
  let second := run (handle_url 1 sample_update sample_context)
                    sample_clocks (table_of first) in
  In "abc" (map unique_id [sample_row 0])
  /\ value_of dup = value_of ok
  /\ table_of dup = [sample_row 0]
  /\ url_of "abc" (table_of dup) = Some "https://example.com/a"
  /\ length (table_of ok) = 1%nat
  /\ In sample_unique_id (map unique_id (table_of first))
  /\ table_of second = table_of first
  /\ value_of second = value_of first
  /\ filter is_reply (journal_of second) = filter is_reply (journal_of first)
  /\ In (Log ERROR ("Duplicate unique_id: " ++ sample_unique_id)%string)
        (journal_of second).
Proof.
  vm_compute. repeat split; auto 10.
Qed.

(* ===================================================================== *)
(** ** The theorems at sample inputs *)
(* ===================================================================== *)

Lemma C3_click_count_counts_successful_lookups_witness :
  click_count (sample_row 2) = successful_lookups "abc" sample_history []
  /\ successful_lookups "abc" sample_history [] = 2.
Proof.
  split; [| reflexivity].
  apply (C3_click_count_counts_successful_lookups
           [] sample_history (sample_row 2)
           "abc" "https://example.com/a" 1 "Ada" sample_clocks).
  - constructor.
  - intros H. destruct H.
  - vm_compute. left. reflexivity.
  - intros H. destruct H.
Defined.

Lemma C4_store_is_append_mostly_witness :
  exists r',
    nth_error (table_of (run (exec_op (Lookup "abc")) sample_clocks
                             [sample_row 0])) 0 = Some r'
    /\ same_record (sample_row 0) r'
    /\ click_count r' = 0 + 1.
Proof.
  apply (C4_store_is_append_mostly (Lookup "abc") sample_clocks
           [sample_row 0] 0 (sample_row 0)).
  reflexivity.
Defined.

Lemma C7_lookup_of_unknown_id_witness :
  run (get_original_url "zzz") sample_clocks [sample_row 3]
  = (None, [sample_row 3],
     [Connect; Execute (SelectOriginalUrl "zzz"); Close]).
Proof.
  apply (C7_lookup_of_unknown_id "zzz" sample_clocks [sample_row 3]).
  simpl. intros [H | []]. discriminate H.
Defined.

(* ===================================================================== *)
(** ** Slicing and the hashed string *)
(* ===================================================================== *)

Lemma string_app_assoc (a b c : string) :
  ((a ++ b) ++ c)%string = (a ++ (b ++ c))%string.
Proof. induction a as [| x a IH]; cbn; [reflexivity | now rewrite IH]. Qed.

Lemma string_app_length (a b : string) :
  String.length (a ++ b)%string = (String.length a + String.length b)%nat.
Proof. induction a as [| x a IH]; cbn; [reflexivity | now rewrite IH]. Qed.

Lemma take_drop_bytes k s :
  (PyStr.take_bytes k s ++ PyStr.drop_bytes k s)%string = s.
Proof.
  revert s. induction k as [| k IH]; intros [| a s]; cbn; try reflexivity.
  now rewrite IH.
Qed.

(** X1: [s[:n] + s[n:]] is [s], for every string and every [n]: the two
    slices cut at the same place, also inside text that is not ASCII. *)
Theorem X1_take_chars_drop_chars (n : nat) (s : string) :
  (PyStr.take_chars n s ++ PyStr.drop_chars n s)%string = s.
Proof.
  revert s. induction n as [| n IH]; intros [| a s]; try reflexivity.
  cbn [PyStr.take_chars PyStr.drop_chars].
  rewrite string_app_assoc, IH. apply take_drop_bytes.
Qed.

Lemma is_ascii_width a : is_ascii a = true -> PyStr.char_width a = 1%nat.
Proof.
  destruct a as [b0 b1 b2 b3 b4 b5 b6 b7]. cbn. intros H.
  destruct b7; [discriminate H |].
  destruct b3, b4, b5, b6; reflexivity.
Qed.

(** X2: on text made of ASCII bytes only, [s[:n]] is the first [n] bytes
    of [s], so it has [min n (len s)] characters. *)
Theorem X2_take_chars_ascii (n : nat) (s : string) :
  all_ascii s = true ->
  PyStr.take_chars n s = String.substring 0 n s
  /\ String.length (PyStr.take_chars n s) = Nat.min n (String.length s).
Proof.
  unfold all_ascii. revert s.
  induction n as [| n IH]; intros [| a s] H; try (split; reflexivity).
  cbn [list_ascii_of_string forallb] in H.
  apply andb_true_iff in H as [Ha Hs].
  cbn [PyStr.take_chars]. rewrite (is_ascii_width a Ha).
  cbn [PyStr.take_bytes PyStr.drop_bytes String.append String.substring].
  destruct (IH s Hs) as [IH1 IH2]. split.
  - now rewrite IH1.
  - cbn [String.length]. rewrite IH2. reflexivity.
Qed.

Lemma X2_take_chars_ascii_witness :
  PyStr.take_chars 50 "https://example.com/a" = "https://example.com/a"
  /\ String.length (PyStr.take_chars 50 "https://example.com/a") = 21%nat.
Proof.
  apply (X2_take_chars_ascii 50 "https://example.com/a"). reflexivity.
Defined.

Lemma has_underscore_app x y :
  has_underscore (x ++ String "_" y)%string = true.
Proof.
  unfold has_underscore. induction x as [| a x IH]; [reflexivity |].
  cbn [String.append list_ascii_of_string existsb]. rewrite IH.
  apply orb_true_r.
Qed.

Lemma unique_string_of_injective u1 t1 u2 t2 :
  has_underscore t1 = false -> has_underscore t2 = false ->
  unique_string_of u1 t1 = unique_string_of u2 t2 ->
  u1 = u2 /\ t1 = t2.
Proof.
  unfold unique_string_of. intros H1 H2. revert u2.
  induction u1 as [| a u1 IH]; intros [| b u2] H; cbn in H.
  - injection H as ->. split; reflexivity.
  - injection H as _ ->. rewrite has_underscore_app in H1. discriminate H1.
  - injection H as _ <-. rewrite has_underscore_app in H2. discriminate H2.
  - injection H as -> H. destruct (IH u2 H) as [-> ->]. split; reflexivity.
Qed.

Lemma encode_injective s1 s2 : PyStr.encode s1 = PyStr.encode s2 -> s1 = s2.
Proof.
  unfold PyStr.encode. revert s2.
  induction s1 as [| a s1 IH]; intros [| b s2] H; cbn in H;
    try discriminate H; [reflexivity |].
  injection H as Hab H. apply IH in H. subst s2.
  apply N2Z.inj in Hab.
  rewrite <- (ascii_N_embedding a), <- (ascii_N_embedding b), Hab.
  reflexivity.
Qed.

(** X3: [generate_unique_id] hashes the bytes of [f"{url}_{now}"], and as
    long as the rendered clock readings hold no underscore, these bytes
    determine both the URL and the reading: two calls hash the same bytes
    only for the same URL at the same reading. *)
Theorem X3_hashed_bytes_determine_url_and_time
    (url1 url2 : string) (w1 w2 : world) :
  has_underscore (time_now w1) = false ->
  has_underscore (time_now w2) = false ->
  fst (fst (generate_unique_id url1 w1))
    = MD5.hexdigest (PyStr.encode (unique_string_of url1 (time_now w1)))
  /\ (PyStr.encode (unique_string_of url1 (time_now w1))
      = PyStr.encode (unique_string_of url2 (time_now w2)) ->
      url1 = url2 /\ time_now w1 = time_now w2).
Proof.
  intros H1 H2. split; [reflexivity |].
  intros H. apply encode_injective in H.
  apply (unique_string_of_injective _ _ _ _ H1 H2 H).
Qed.

Lemma X3_hashed_bytes_determine_url_and_time_witness :
  fst (fst (generate_unique_id "https://example.com/a_b"
                               (idle [] sample_clocks)))
  = MD5.hexdigest
      (PyStr.encode (unique_string_of "https://example.com/a_b"
                                      "1700000000.123456")).
Proof.
  apply (X3_hashed_bytes_determine_url_and_time
           "https://example.com/a_b" "https://example.com/a"
           (idle [] sample_clocks) (idle [] sample_clocks));
    reflexivity.
Defined.

(* ===================================================================== *)
(** ** Following a deep link *)
(* ===================================================================== *)

Lemma start_run_args update context c t u rest :
  args context = u :: rest ->
  run (start update context) c t
  = (tt, table_of (run (get_original_url u) c t),
     journal_of (run (get_original_url u) c t)
     ++ start_replies (effective_user update)
                      (value_of (run (get_original_url u) c t))).
Proof.
  intros Hargs. unfold start, start_replies. rewrite Hargs.
  unfold run, bind.
  destruct (get_original_url u (idle t c)) as [[r w] j].
  cbn [value_of table_of journal_of fst snd].
  destruct (if_truthy r); reflexivity.
Qed.

(** X4: [start] with an argument serves whoever sends it (there is no
    admin check).  When the first argument is an identifier in the table
    whose URL is not empty, the click is counted and committed, the reply
    carries the URL in its text and in its one button, and the access is
    logged; further arguments are ignored. *)
Theorem X4_start_serves_known_id
    (update : Update) (context : Context) (c : clocks) (t : table)
    (u : string) (rest : list string) (r : row) :
  args context = u :: rest ->
  find (has_unique_id u) t = Some r ->
  original_url r <> "" ->
  run (start update context) c t
  = (tt, bump_matching u t,
     [Connect; Execute (SelectOriginalUrl u); Execute (UpdateClickCount u);
      Commit; Close;
      ReplyText ("🔗 Here's your requested link:" ++ nl ++ nl
                 ++ original_url r)%string
                (Some [[mkButton "🌐 Open URL" (original_url r)]]);
      Log INFO ("User " ++ PyStr.str_of_int (User.id (effective_user update))
                ++ " accessed URL via deep link: " ++ original_url r)%string]).
Proof.
  intros Hargs Hfind Hurl.
  rewrite (start_run_args _ _ _ _ _ _ Hargs).
  rewrite (run_lookup_found u r) by exact Hfind.
  cbn [value_of table_of journal_of fst snd]. unfold start_replies.
  destruct (original_url r) as [| a s] eqn:E; [contradiction |].
  reflexivity.
Qed.

Lemma X4_start_serves_known_id_witness :
  table_of (run (start (mkUpdate sample_guest "" "")
                       (mkContext ["abc"; "ignored"] "linkbot"))
                sample_clocks [sample_row 0])
  = [sample_row 1].
Proof.
  rewrite (X4_start_serves_known_id
             (mkUpdate sample_guest "" "")
             (mkContext ["abc"; "ignored"] "linkbot")
             sample_clocks [sample_row 0] "abc" ["ignored"] (sample_row 0)
             eq_refl eq_refl).
  - reflexivity.
  - discriminate.
Defined.

(** X5: [start] with an identifier that is not in the table answers that
    the link is no longer valid; only the SELECT is executed, nothing is
    committed or logged, and the table stays as it was. *)
Theorem X5_start_rejects_unknown_id
    (update : Update) (context : Context) (c : clocks) (t : table)
    (u : string) (rest : list string) :
  args context = u :: rest ->
  ~ In u (map unique_id t) ->
  run (start update context) c t
  = (tt, t,
     [Connect; Execute (SelectOriginalUrl u); Close;
      ReplyText invalid_link_text None]).
Proof.
  intros Hargs Hu.
  rewrite (start_run_args _ _ _ _ _ _ Hargs).
  rewrite (run_lookup_unknown u c t Hu). reflexivity.
Qed.

Lemma X5_start_rejects_unknown_id_witness :
  run (start (mkUpdate sample_admin "" "") (mkContext ["zzz"] "linkbot"))
      sample_clocks [sample_row 3]
  = (tt, [sample_row 3],
     [Connect; Execute (SelectOriginalUrl "zzz"); Close;
      ReplyText invalid_link_text None]).
Proof.
  apply (X5_start_rejects_unknown_id
           (mkUpdate sample_admin "" "") (mkContext ["zzz"] "linkbot")
           sample_clocks [sample_row 3] "zzz" [] eq_refl).
  simpl. intros [H | []]. discriminate H.
Defined.

(* ===================================================================== *)
(** ** Which updates reach the store *)
(* ===================================================================== *)

Lemma run_handle_url_accepted ADMIN_ID update context c t :
  User.id (effective_user update) = ADMIN_ID ->
  has_scheme (message_text update) = true ->
  run (handle_url ADMIN_ID update context) c t
  = let u := unique_id_for (message_text update) (clock_time c) in
    let x := run (store_url_mapping u (message_text update)
                    (User.id (effective_user update))
                    (user_name_of (effective_user update))) c t in
    (tt, table_of x,
     TimeTime :: journal_of x ++ handle_url_replies update context u).
Proof.
  intros Ha Hs. unfold run.
  rewrite (handle_url_accepted _ _ _ _ Ha Hs). cbv zeta.
  cbn [idle time_now].
  destruct (store_url_mapping _ _ _ _ _) as [[[] w] j]. reflexivity.
Qed.

Lemma store_url_mapping_connects u url uid un c t :
  existsb is_store_effect
          (journal_of (run (store_url_mapping u url uid un) c t)) = true.
Proof.
  destruct (existsb (has_unique_id u) t) eqn:E.
  - rewrite run_create_duplicate by exact E. reflexivity.
  - rewrite run_create_fresh by exact E. reflexivity.
Qed.

(** X6: the handlers open the database in three situations only: [start]
    with an argument (any sender), [stats_command] for the admin, and
    [handle_url] for the admin with a text that has a URL scheme.  Every
    other update ([help], [start] without argument, callbacks, anything
    refused) runs without a single store effect, and in the three
    situations the store is always reached. *)
Theorem X6_store_is_reached_exactly_when
    (ADMIN_ID : Z) (k : kind) (update : Update) (context : Context)
    (c : clocks) (t : table) :
  existsb is_store_effect
          (journal_of (run (dispatch ADMIN_ID k update context) c t))
  = touches_store ADMIN_ID k update context.
Proof.
  destruct k; cbn [dispatch touches_store].
  - destruct (args context) as [| u rest] eqn:Hargs.
    + unfold start. rewrite Hargs. reflexivity.
    + rewrite (start_run_args _ _ _ _ _ _ Hargs).
      cbn [journal_of snd]. rewrite existsb_app.
      destruct (find (has_unique_id u) t) as [r |] eqn:E.
      * rewrite (run_lookup_found u r) by exact E. reflexivity.
      * rewrite run_lookup_missing by exact E. reflexivity.
  - reflexivity.
  - unfold stats_command.
    destruct (User.id (effective_user update) =? ADMIN_ID); reflexivity.
  - destruct (User.id (effective_user update) =? ADMIN_ID) eqn:Ea.
    + destruct (PyStr.startswith_any (message_text update)
                  ["http://"; "https://"]) eqn:Es.
      * apply Z.eqb_eq in Ea.
        rewrite (run_handle_url_accepted _ _ _ _ _ Ea Es). cbv zeta.
        cbn [journal_of snd existsb is_store_effect orb andb].
        rewrite existsb_app, store_url_mapping_connects. reflexivity.
      * unfold handle_url. rewrite Ea, Es. reflexivity.
    + unfold handle_url. rewrite Ea. reflexivity.
  - unfold button_handler, run, bind, emit, ret.
    destruct (PyStr.startswith _ _); reflexivity.
Qed.

(** X7: an accepted submission whose identifier is already in the table
    changes nothing in the table and logs the duplicate as an error, and
    the admin still receives the reply that announces the deep link for
    the submitted URL. *)
Theorem X7_handle_url_on_taken_id
    (ADMIN_ID : Z) (update : Update) (context : Context)
    (c : clocks) (t : table) :
  User.id (effective_user update) = ADMIN_ID ->
  has_scheme (message_text update) = true ->
  In (unique_id_for (message_text update) (clock_time c))
     (map unique_id t) ->
  let u := unique_id_for (message_text update) (clock_time c) in
  run (handle_url ADMIN_ID update context) c t
  = (tt, t,
     [TimeTime; Connect;
      Execute (InsertUrl u (message_text update)
                         (User.id (effective_user update))
                         (user_name_of (effective_user update)));
      Log ERROR ("Duplicate unique_id: " ++ u)%string; Close;
      ReplyText
        (result_message_of (message_text update)
                           (deep_link_of (bot_username context) u))
        (Some (share_keyboard (message_text update)
                              (deep_link_of (bot_username context) u)));
      Log INFO
        ("Admin " ++ PyStr.str_of_int (User.id (effective_user update))
         ++ " generated deep link for URL: " ++ message_text update
         ++ " -> " ++ deep_link_of (bot_username context) u)%string]).
Proof.
  intros Ha Hs Hin u.
  rewrite (run_handle_url_accepted _ _ _ _ _ Ha Hs). cbv zeta. fold u.
  rewrite run_create_duplicate by (apply existsb_has_unique_id; exact Hin).
  reflexivity.
Qed.

Lemma X7_handle_url_on_taken_id_witness :
  table_of (run (handle_url 1 sample_update sample_context) sample_clocks
                [sample_stored_row 0])
  = [sample_stored_row 0].
Proof.
  rewrite (X7_handle_url_on_taken_id 1 sample_update sample_context
             sample_clocks [sample_stored_row 0] eq_refl eq_refl).
  - reflexivity.
  - left. reflexivity.
Defined.

(* ===================================================================== *)
(** ** The statistics message *)
(* ===================================================================== *)

Lemma stats_line_app acc entry :
  stats_line acc entry = (acc ++ stats_line "" entry)%string.
Proof. destruct entry as [i [url clicks]]. reflexivity. Qed.

Lemma fold_left_stats_line l acc :
  fold_left stats_line l acc
  = (acc ++ fold_right (fun entry rest => (stats_line "" entry ++ rest)%string)
                       "" l)%string.
Proof.
  revert acc. induction l as [| x l IH]; intros acc; cbn [fold_left fold_right].
  - induction acc as [| a acc IHa]; cbn; [reflexivity | now rewrite <- IHa].
  - rewrite IH, (stats_line_app acc x), string_app_assoc. reflexivity.
Qed.

(** X8: for the admin, [stats_command] only reads: the table is
    unchanged and nothing is committed.  Its one reply is the header with
    the number of rows and the sum of all click counts, followed by one
    numbered line per row of the top five. *)
Theorem X8_stats_command_for_admin
    (ADMIN_ID : Z) (update : Update) (context : Context)
    (c : clocks) (t : table) :
  User.id (effective_user update) = ADMIN_ID ->
  run (stats_command ADMIN_ID update context) c t
  = (tt, t,
     [Connect; Execute SelectCount; Execute SelectSumClicks;
      Execute SelectTop5; Close;
      ReplyText (stats_header (Z.of_nat (length t)) (sum_clicks t)
                 ++ stats_listing (top5 t))%string
                None]).
Proof.
  intros Ha. apply Z.eqb_eq in Ha.
  unfold stats_command. rewrite Ha. cbn [negb].
  unfold run, bind at 1.
  pose proof (run_get_stats c t) as Hs. unfold run in Hs.
  destruct (get_stats (idle t c)) as [[s w] j].
  injection Hs as -> Hw ->. unfold reply_text, emit.
  cbn [total_urls total_clicks top_urls fst snd].
  rewrite fold_left_stats_line. rewrite Hw.
  unfold stats_header, stats_listing, top5.
  rewrite !string_app_assoc. reflexivity.
Qed.

Lemma X8_stats_command_for_admin_witness :
  table_of (run (stats_command 1 (mkUpdate sample_admin "" "") sample_context)
                sample_clocks [sample_row 3])
  = [sample_row 3].
Proof.
  rewrite (X8_stats_command_for_admin 1 (mkUpdate sample_admin "" "")
             sample_context sample_clocks [sample_row 3] eq_refl).
  reflexivity.
Defined.

(* ===================================================================== *)
(** ** What a run of updates does to the table *)
(* ===================================================================== *)

(** The table after one update: a row is appended for an accepted
    submission under a new identifier, a click is counted for [/start]
    with an argument, and nothing changes otherwise. *)
Lemma handle_spec ADMIN_ID e t :
  handle ADMIN_ID e t
  = if accepts ADMIN_ID e t then t ++ [submission_row e t]
    else match looked_up e with
         | Some u => bump_matching u t
         | None => t
         end.
Proof.
  unfold handle, accepts, looked_up, dispatch.
  destruct (ev_kind e); cbn [andb].
  - rewrite start_table. destruct (args (ev_context e)); reflexivity.
  - reflexivity.
  - apply stats_command_table.
  - destruct (User.id (effective_user (ev_update e)) =? ADMIN_ID) eqn:Ea;
      cbn [andb].
    + destruct (PyStr.startswith_any (message_text (ev_update e))
                  ["http://"; "https://"]) eqn:Es; cbn [andb].
      * apply Z.eqb_eq in Ea.
        rewrite (run_handle_url_accepted _ _ _ _ _ Ea Es). cbv zeta.
        cbn [table_of fst snd]. fold (event_unique_id e).
        destruct (existsb (has_unique_id (event_unique_id e)) t) eqn:E;
          cbn [negb].
        -- rewrite run_create_duplicate by exact E. reflexivity.
        -- rewrite run_create_fresh by exact E. reflexivity.
      * unfold handle_url. rewrite Ea, Es. reflexivity.
    + unfold handle_url. rewrite Ea. reflexivity.
  - unfold button_handler, run, bind, emit, ret.
    destruct (PyStr.startswith _ _); reflexivity.
Qed.

Lemma accepts_inv ADMIN_ID e t :
  accepts ADMIN_ID e t = true ->
  ev_kind e = Text
  /\ User.id (effective_user (ev_update e)) = ADMIN_ID
  /\ has_scheme (message_text (ev_update e)) = true
  /\ existsb (has_unique_id (event_unique_id e)) t = false.
Proof.
  unfold accepts, has_scheme. destruct (ev_kind e); try discriminate.
  intros H. apply andb_true_iff in H as [H H3].
  apply andb_true_iff in H as [H1 H2].
  apply Z.eqb_eq in H1. apply negb_true_iff in H3. tauto.
Qed.

(** A property of tables that each update keeps is kept by a run. *)
Lemma handle_all_keeps ADMIN_ID (P : table -> Prop) :
  (forall e t, P t -> P (handle ADMIN_ID e t)) ->
  forall es t, P t -> P (handle_all ADMIN_ID es t).
Proof.
  intros Hstep es. unfold handle_all.
  induction es as [| e es IH]; intros t H; [exact H |].
  cbn [fold_left]. apply IH, Hstep, H.
Qed.

Lemma Forall_bump_matching (P : row -> Prop) u t :
  (forall r, P r -> P (bump r)) ->
  Forall P t -> Forall P (bump_matching u t).
Proof.
  intros Hb H. unfold bump_matching. apply Forall_map.
  eapply Forall_impl; [| exact H]. intros r Hr.
  destruct (has_unique_id u r); auto.
Qed.

(** X9: only the admin writes, and only URLs with a scheme: if every row
    of the table carries the admin's id as [user_id] and a URL that
    starts with [http://] or [https://], the same holds after any run of
    updates from any senders. *)
Theorem X9_rows_are_written_by_the_admin
    (ADMIN_ID : Z) (es : list event) (t : table) :
  Forall (admin_row ADMIN_ID) t ->
  Forall (admin_row ADMIN_ID) (handle_all ADMIN_ID es t).
Proof.
  apply handle_all_keeps. clear. intros e t H. rewrite handle_spec.
  destruct (accepts ADMIN_ID e t) eqn:Ea.
  - apply accepts_inv in Ea as (_ & Hid & Hs & _).
    apply Forall_app. split; [exact H |].
    constructor; [| constructor]. split; [exact Hid | exact Hs].
  - destruct (looked_up e); [| exact H].
    apply Forall_bump_matching; [| exact H]. intros r Hr. exact Hr.
Qed.

Lemma md5_hex_id_unique_id_for url now : md5_hex_id (unique_id_for url now).
Proof.
  unfold md5_hex_id, unique_id_for, MD5.hexdigest. split.
  - rewrite hex_of_bytes_length, digest_length. reflexivity.
  - apply hex_of_bytes_is_hex.
Qed.

Lemma unique_ids_handle ADMIN_ID e t :
  unique_ids t -> unique_ids (handle ADMIN_ID e t).
Proof.
  unfold unique_ids. intros H. rewrite handle_spec.
  destruct (accepts ADMIN_ID e t) eqn:Ea.
  - apply accepts_inv in Ea as (_ & _ & _ & Hf).
    rewrite map_app. cbn [map submission_row inserted_row unique_id].
    apply NoDup_app; [exact H | repeat constructor; intros [] |].
    intros x Hx [<- | []]. apply existsb_has_unique_id in Hx. congruence.
  - destruct (looked_up e); [| exact H].
    rewrite map_unique_id_bump_matching. exact H.
Qed.

(** X10: the identifiers in the table stay pairwise distinct and stay
    32-character hexadecimal strings through any run of updates: the
    UNIQUE constraint is never violated and every identifier the bot adds
    is an MD5 hex digest. *)
Theorem X10_identifiers_stay_distinct_md5_hex
    (ADMIN_ID : Z) (es : list event) (t : table) :
  unique_ids t ->
  Forall md5_hex_id (map unique_id t) ->
  unique_ids (handle_all ADMIN_ID es t)
  /\ Forall md5_hex_id (map unique_id (handle_all ADMIN_ID es t)).
Proof.
  intros Hu Hh.
  apply (handle_all_keeps ADMIN_ID
           (fun t => unique_ids t /\ Forall md5_hex_id (map unique_id t)));
    [| split; assumption].
  clear. intros e t [Hu Hh]. split; [apply unique_ids_handle, Hu |].
  rewrite handle_spec. destruct (accepts ADMIN_ID e t).
  - rewrite map_app. apply Forall_app. split; [exact Hh |].
    change (map unique_id [submission_row e t]) with [event_unique_id e].
    apply Forall_cons; [| apply Forall_nil].
    exact (md5_hex_id_unique_id_for _ _).
  - destruct (looked_up e); [| exact Hh].
    rewrite map_unique_id_bump_matching. exact Hh.
Qed.

Lemma max_rowid_seq a n :
  fold_right Z.max 0 (map Z.of_nat (seq a n))
  = match n with O => 0 | S _ => Z.of_nat (a + n - 1) end.
Proof.
  revert a. induction n as [| n IH]; intros a; [reflexivity |].
  cbn [seq map fold_right]. rewrite IH. destruct n; lia.
Qed.

Lemma next_rowid_in_sequence t :
  rowids_in_sequence t -> next_rowid t = Z.of_nat (length t) + 1.
Proof.
  unfold rowids_in_sequence, next_rowid. intros ->.
  rewrite max_rowid_seq. destruct (length t); lia.
Qed.

Lemma map_id_bump_matching u t : map id (bump_matching u t) = map id t.
Proof.
  unfold bump_matching. rewrite map_map. apply map_ext.
  intros r. destruct (has_unique_id u r); reflexivity.
Qed.

(** X11: AUTOINCREMENT numbers the rows 1, 2, 3, ... in table order: if
    the rowids of the table are 1..n, they are 1..m after any run of
    updates, so rowids are never reused or skipped. *)
Theorem X11_rowids_stay_in_sequence
    (ADMIN_ID : Z) (es : list event) (t : table) :
  rowids_in_sequence t -> rowids_in_sequence (handle_all ADMIN_ID es t).
Proof.
  apply handle_all_keeps. clear. intros e t H. rewrite handle_spec.
  destruct (accepts ADMIN_ID e t).
  - unfold rowids_in_sequence. rewrite map_app, length_app.
    cbn [map length submission_row inserted_row id].
    rewrite (next_rowid_in_sequence t H), Nat.add_1_r, seq_S, map_app.
    cbn [map]. rewrite <- H. f_equal. f_equal. lia.
  - destruct (looked_up e); [| exact H].
    unfold rowids_in_sequence, bump_matching in *.
    rewrite length_map. fold (bump_matching s t).
    rewrite map_id_bump_matching. exact H.
Qed.

Lemma X9_rows_are_written_by_the_admin_witness :
  Forall (admin_row 1)
         (handle_all 1 [sample_submission; sample_start sample_unique_id] []).
Proof.
  apply (X9_rows_are_written_by_the_admin 1
           [sample_submission; sample_start sample_unique_id] []).
  constructor.
Defined.

Lemma X10_identifiers_stay_distinct_md5_hex_witness :
  unique_ids (handle_all 1 [sample_submission; sample_submission] [])
  /\ Forall md5_hex_id
            (map unique_id
                 (handle_all 1 [sample_submission; sample_submission] [])).
Proof.
  apply (X10_identifiers_stay_distinct_md5_hex 1
           [sample_submission; sample_submission] []).
  - constructor.
  - constructor.
Defined.

Lemma X11_rowids_stay_in_sequence_witness :
  rowids_in_sequence
    (handle_all 1 [sample_submission; sample_start "abc"] [sample_row 0]).
Proof.
  apply (X11_rowids_stay_in_sequence 1
           [sample_submission; sample_start "abc"] [sample_row 0]).
  reflexivity.
Defined.

Lemma handle_persists ADMIN_ID e t i r :
  nth_error t i = Some r ->
  exists r', nth_error (handle ADMIN_ID e t) i = Some r'
             /\ same_record r r' /\ click_count r <= click_count r'.
Proof.
  intros Hr. rewrite handle_spec. destruct (accepts ADMIN_ID e t).
  - exists r. split; [| split; [apply same_record_refl | lia]].
    rewrite nth_error_app1; [exact Hr |]. apply nth_error_Some. congruence.
  - destruct (looked_up e) as [u |].
    + rewrite nth_error_bump_matching, Hr. cbn [option_map].
      destruct (has_unique_id u r).
      * exists (bump r). split; [reflexivity |].
        split; [apply same_record_bump | cbn; lia].
      * exists r. split; [reflexivity |].
        split; [apply same_record_refl | lia].
    + exists r. split; [exact Hr |]. split; [apply same_record_refl | lia].
Qed.

Lemma same_record_trans r1 r2 r3 :
  same_record r1 r2 -> same_record r2 r3 -> same_record r1 r3.
Proof.
  unfold same_record. intros (a & b & c & d & e & f) (a' & b' & c' & d' & e' & f').
  repeat split; congruence.
Qed.

Lemma handle_all_persists ADMIN_ID es t i r :
  nth_error t i = Some r ->
  exists r', nth_error (handle_all ADMIN_ID es t) i = Some r'
             /\ same_record r r' /\ click_count r <= click_count r'.
Proof.
  unfold handle_all. revert t r.
  induction es as [| e es IH]; intros t r Hr; cbn [fold_left].
  - exists r. split; [exact Hr |]. split; [apply same_record_refl | lia].
  - destruct (handle_persists ADMIN_ID e t i r Hr) as (r1 & H1 & Hs1 & Hc1).
    destruct (IH _ _ H1) as (r2 & H2 & Hs2 & Hc2).
    exists r2. split; [exact H2 |].
    split; [eapply same_record_trans; eassumption | lia].
Qed.

(** X12: no run of updates removes, moves or rewrites a row: a row of the
    table is found at the same position after the run with the same [id],
    [unique_id], [original_url], [created_at], [user_id] and [user_name],
    and with a [click_count] that has not gone down. *)
Theorem X12_rows_persist_through_updates
    (ADMIN_ID : Z) (es : list event) (t : table) (i : nat) (r : row) :
  nth_error t i = Some r ->
  exists r', nth_error (handle_all ADMIN_ID es t) i = Some r'
             /\ same_record r r' /\ click_count r <= click_count r'.
Proof. apply handle_all_persists. Qed.

Lemma X12_rows_persist_through_updates_witness :
  exists r',
    nth_error (handle_all 1 [sample_submission; sample_start "abc"]
                          [sample_row 0]) 0 = Some r'
    /\ same_record (sample_row 0) r' /\ 0 <= click_count r'.
Proof.
  apply (X12_rows_persist_through_updates 1
           [sample_submission; sample_start "abc"] [sample_row 0] 0
           (sample_row 0)).
  reflexivity.
Defined.

Lemma map_original_url_bump_matching u t :
  map original_url (bump_matching u t) = map original_url t.
Proof.
  unfold bump_matching. rewrite map_map. apply map_ext.
  intros r. destruct (has_unique_id u r); reflexivity.
Qed.

(** X13: senders other than the admin cannot add or alter a mapping: a
    run of updates that are all from other senders, of whatever kind and
    content, leaves the identifiers and the URLs of the table exactly as
    they were (such a run can only count clicks). *)
Theorem X13_other_senders_never_change_mappings
    (ADMIN_ID : Z) (es : list event) (t : table) :
  Forall (fun e => User.id (effective_user (ev_update e)) <> ADMIN_ID) es ->
  map unique_id (handle_all ADMIN_ID es t) = map unique_id t
  /\ map original_url (handle_all ADMIN_ID es t) = map original_url t.
Proof.
  unfold handle_all. intros H. revert t.
  induction H as [| e es He Hes IH]; intros t; [split; reflexivity |].
  cbn [fold_left]. destruct (IH (handle ADMIN_ID e t)) as [IH1 IH2].
  rewrite IH1, IH2, handle_spec.
  destruct (accepts ADMIN_ID e t) eqn:Ea.
  - apply accepts_inv in Ea as (_ & Hid & _). contradiction.
  - destruct (looked_up e); [| split; reflexivity].
    rewrite map_unique_id_bump_matching, map_original_url_bump_matching.
    split; reflexivity.
Qed.

Lemma X13_other_senders_never_change_mappings_witness :
  map original_url
      (handle_all 1
         [mkEvent Text (mkUpdate sample_guest "https://example.org/b" "")
                  sample_context sample_clocks;
          sample_start "abc"]
         [sample_row 0])
  = ["https://example.com/a"].
Proof.
  apply (X13_other_senders_never_change_mappings 1
           [mkEvent Text (mkUpdate sample_guest "https://example.org/b" "")
                    sample_context sample_clocks;
            sample_start "abc"]
           [sample_row 0]).
  repeat constructor; cbn; lia.
Defined.

(* ===================================================================== *)
(** ** From the submission to the reply of the deep link *)
(* ===================================================================== *)

Lemma has_scheme_nonempty s : has_scheme s = true -> s <> "".
Proof. intros H ->. discriminate H. Qed.

Lemma url_of_find u t x :
  url_of u t = Some x ->
  exists r, find (has_unique_id u) t = Some r /\ original_url r = x.
Proof.
  unfold url_of. destruct (find (has_unique_id u) t) as [r |];
    [| discriminate].
  cbn. intros [= <-]. exists r. split; reflexivity.
Qed.

(** X14: once the admin's submission is stored under a new identifier,
    any sender who later sends [/start] with that identifier is answered
    with the submitted URL, in the text and as the target of the button,
    whatever updates were handled in between. *)
Theorem X14_deep_link_is_answered_with_the_url
    (ADMIN_ID : Z) (update : Update) (context : Context) (c : clocks)
    (t : table) (later : list event)
    (update' : Update) (context' : Context) (c' : clocks)
    (rest : list string) :
  User.id (effective_user update) = ADMIN_ID ->
  has_scheme (message_text update) = true ->
  ~ In (unique_id_for (message_text update) (clock_time c))
       (map unique_id t) ->
  args context' = unique_id_for (message_text update) (clock_time c) :: rest ->
  In (ReplyText
        ("🔗 Here's your requested link:" ++ nl ++ nl
         ++ message_text update)%string
        (Some [[mkButton "🌐 Open URL" (message_text update)]]))
     (journal_of
        (run (start update' context') c'
             (handle_all ADMIN_ID later
                (table_of (run (handle_url ADMIN_ID update context) c t))))).
Proof.
  intros Ha Hs Hfresh Hargs.
  set (u := unique_id_for (message_text update) (clock_time c)) in *.
  apply not_in_existsb in Hfresh.
  rewrite (run_handle_url_accepted _ _ _ _ _ Ha Hs). cbv zeta. fold u.
  rewrite run_create_fresh by exact Hfresh. cbn [table_of fst snd].
  set (t1 := t ++ _).
  assert (H1 : url_of u t1 = Some (message_text update)).
  { unfold t1, url_of. rewrite find_app_fresh.
    apply find_none_existsb in Hfresh. rewrite Hfresh.
    unfold has_unique_id, inserted_row. cbn [unique_id original_url].
    rewrite String.eqb_refl. reflexivity. }
  apply (url_of_handle_all ADMIN_ID _ _ later) in H1.
  apply url_of_find in H1 as (r & Hfind & Hurl).
  rewrite (start_run_args _ _ _ _ _ _ Hargs).
  rewrite (run_lookup_found u r) by exact Hfind.
  cbn [value_of table_of journal_of fst snd]. unfold start_replies.
  rewrite Hurl.
  destruct (message_text update) as [| a s] eqn:E;
    [discriminate Hs |].
  cbn [if_truthy PyStr.truthy]. apply in_or_app. right. left. reflexivity.
Qed.

Lemma X14_deep_link_is_answered_with_the_url_witness :
  In (ReplyText
        ("🔗 Here's your requested link:" ++ nl ++ nl
         ++ "https://example.com/a")%string
        (Some [[mkButton "🌐 Open URL" "https://example.com/a"]]))
     (journal_of
        (run (start (mkUpdate sample_guest "" "")
                    (mkContext [sample_unique_id] "linkbot"))
             sample_clocks
             (handle_all 1 sample_later
                (table_of (run (handle_url 1 sample_update sample_context)
                               sample_clocks []))))).
Proof.
  apply (X14_deep_link_is_answered_with_the_url 1 sample_update
           sample_context sample_clocks [] sample_later
           (mkUpdate sample_guest "" "")
           (mkContext [sample_unique_id] "linkbot") sample_clocks []
           eq_refl eq_refl (fun H => match H with end) eq_refl).
Defined.

(* ===================================================================== *)
(** ** Histories of store operations *)
(* ===================================================================== *)

Lemma url_of_exec_op u o c t :
  url_of u (table_of (run (exec_op o) c t))
  = match url_of u t with
    | Some x => Some x
    | None => first_created u [(o, c)]
    end.
Proof.
  destruct o as [u' url uid un | u' |]; cbn [first_created].
  - rewrite table_after_create. unfold url_of.
    destruct (existsb (has_unique_id u') t) eqn:E.
    + destruct (find (has_unique_id u) t) as [r |] eqn:Ef; [reflexivity |].
      cbn. destruct (String.eqb u' u) eqn:Eu; [| reflexivity].
      apply String.eqb_eq in Eu. subst u'.
      apply find_none_existsb in Ef. congruence.
    + rewrite find_app_fresh.
      destruct (find (has_unique_id u) t) as [r |]; [reflexivity |].
      unfold has_unique_id, inserted_row. cbn [unique_id].
      destruct (String.eqb u' u); reflexivity.
  - destruct (run_lookup u' c t) as [_ Ht]. rewrite Ht. unfold url_of.
    rewrite find_bump_matching.
    destruct (find (has_unique_id u) t) as [r |]; [| reflexivity].
    cbn. destruct (has_unique_id u' r); reflexivity.
  - rewrite table_after_stats. destruct (url_of u t); reflexivity.
Qed.

Lemma url_of_final_table u h t :
  url_of u (final_table h t)
  = match url_of u t with
    | Some x => Some x
    | None => first_created u h
    end.
Proof.
  revert t. induction h as [| [o c] h IH]; intros t.
  - cbn. destruct (url_of u t); reflexivity.
  - cbn [final_table]. rewrite IH, url_of_exec_op.
    destruct (url_of u t); [reflexivity |].
    destruct o as [u' url uid un | u' |]; cbn [first_created];
      try reflexivity.
    destruct (String.eqb u' u); reflexivity.
Qed.

(** X15: the first create wins.  After any history of creates, lookups
    and stats, a lookup of [u] returns the URL the table already held
    under [u], or else the URL of the first create under [u] in the
    history; creates that come later under the same identifier never
    replace it, and an identifier never created is not found. *)
Theorem X15_lookup_returns_first_created_url
    (u : string) (h : history) (t : table) (c : clocks) :
  value_of (run (get_original_url u) c (final_table h t))
  = match url_of u t with
    | Some x => Some x
    | None => first_created u h
    end.
Proof. rewrite value_get_original_url. apply url_of_final_table. Qed.

Lemma sum_clicks_bump_found u t r :
  unique_ids t -> find (has_unique_id u) t = Some r ->
  sum_clicks (bump_matching u t) = sum_clicks t + 1.
Proof.
  unfold unique_ids, sum_clicks, bump_matching.
  induction t as [| x t IH]; intros Hnd Hf; [discriminate Hf |].
  cbn [map] in Hnd. inversion Hnd as [| ? ? Hx Hnd']; subst.
  cbn [find] in Hf. cbn [map fold_right].
  destruct (has_unique_id u x) eqn:E.
  - fold (bump_matching u t). rewrite bump_matching_absent.
    + cbn. lia.
    + apply not_in_existsb. apply String.eqb_eq in E. rewrite <- E. exact Hx.
  - rewrite (IH Hnd' Hf). lia.
Qed.

Lemma sum_clicks_app t l : sum_clicks (t ++ l) = sum_clicks t + sum_clicks l.
Proof.
  unfold sum_clicks. induction t as [| x t IH]; cbn; [reflexivity |].
  cbn in IH. rewrite IH. lia.
Qed.

Lemma totals_exec_op o c t :
  unique_ids t ->
  Z.of_nat (length (table_of (run (exec_op o) c t)))
  = Z.of_nat (length t)
    + (if is_stored_create o (journal_of (run (exec_op o) c t))
       then 1 else 0)
  /\ sum_clicks (table_of (run (exec_op o) c t))
     = sum_clicks t
       + (if is_served_lookup o (value_of (run (exec_op o) c t))
          then 1 else 0).
Proof.
  intros Hu. destruct o as [u url uid un | u |].
  - unfold exec_op, run, bind, ret.
    destruct (existsb (has_unique_id u) t) eqn:E.
    + rewrite store_url_mapping_duplicate by exact E.
      cbn [table_of journal_of value_of fst snd disk settled idle app
           is_stored_create is_served_lookup existsb is_commit orb].
      split; lia.
    + rewrite store_url_mapping_fresh by exact E.
      cbn [table_of journal_of value_of fst snd disk settled idle app
           is_stored_create is_served_lookup existsb is_commit orb].
      rewrite length_app, sum_clicks_app. cbn [length].
      unfold sum_clicks at 2. cbn. unfold click_count_default.
      split; lia.
  - destruct (run_lookup u c t) as [Hv Ht]. rewrite Hv, Ht.
    unfold exec_op, run, bind, ret, url_of.
    destruct (find (has_unique_id u) t) as [r |] eqn:E.
    + rewrite (get_original_url_found u r) by exact E.
      cbn [journal_of snd is_stored_create is_served_lookup option_map].
      unfold bump_matching at 1. rewrite length_map.
      rewrite (sum_clicks_bump_found u t r Hu E). split; lia.
    + rewrite get_original_url_missing by exact E.
      cbn [journal_of snd is_stored_create is_served_lookup option_map].
      rewrite bump_matching_absent by (apply find_none_existsb; exact E).
      split; lia.
  - rewrite table_after_stats. cbn [is_stored_create].
    replace (is_served_lookup Stats (value_of (run (exec_op Stats) c t)))
      with false by reflexivity.
    split; lia.
Qed.

(** X16: the totals of [get_stats] count what happened.  After any
    history run on a table with distinct identifiers, [total_urls] is the
    number of rows the table had plus the number of creates that
    committed, and [total_clicks] is the sum the table had plus the
    number of lookups that returned a URL. *)
Theorem X16_stats_totals_count_the_history
    (h : history) (t : table) (c : clocks) :
  unique_ids t ->
  total_urls (value_of (run get_stats c (final_table h t)))
    = Z.of_nat (length t) + stored_creates h t
  /\ total_clicks (value_of (run get_stats c (final_table h t)))
    = sum_clicks t + served_lookups h t.
Proof.
  rewrite run_get_stats. cbn [value_of fst total_urls total_clicks].
  revert t. induction h as [| [o k] h IH]; intros t Hu.
  - cbn [final_table stored_creates served_lookups]. split; lia.
  - cbn [final_table stored_creates served_lookups].
    destruct (IH _ (unique_ids_exec_op o k t Hu)) as [IH1 IH2].
    destruct (totals_exec_op o k t Hu) as [H1 H2].
    rewrite IH1, IH2, H1, H2. split; lia.
Qed.

Lemma X16_stats_totals_count_the_history_witness :
  total_urls (value_of (run get_stats sample_clocks
                            (final_table sample_history [])))
    = 0 + stored_creates sample_history []
  /\ stored_creates sample_history [] = 1
  /\ served_lookups sample_history [] = 2.
Proof.
  split; [| split; reflexivity].
  apply (X16_stats_totals_count_the_history sample_history [] sample_clocks).
  constructor.
Defined.

(* ===================================================================== *)
(** ** Clicks along a run of updates *)
(* ===================================================================== *)

Lemma clicks_of_handle ADMIN_ID u e t :
  clicks_of u (handle ADMIN_ID e t)
  = clicks_of u t + (if served_start u e t then 1 else 0).
Proof.
  rewrite handle_spec. unfold served_start.
  destruct (accepts ADMIN_ID e t) eqn:Ea.
  - apply accepts_inv in Ea as (Hk & _). unfold looked_up. rewrite Hk.
    unfold clicks_of. rewrite find_app_fresh.
    destruct (find (has_unique_id u) t); [lia |].
    destruct (has_unique_id u _); cbn; unfold click_count_default; lia.
  - destruct (looked_up e) as [u' |]; [| lia].
    unfold clicks_of. rewrite find_bump_matching.
    destruct (find (has_unique_id u) t) as [r |] eqn:Ef; cbn [option_map].
    + rewrite (find_some_existsb _ _ _ Ef), andb_true_r.
      apply find_has_unique_id in Ef. unfold has_unique_id. rewrite Ef.
      rewrite String.eqb_sym.
      destruct (String.eqb u' u); cbn; lia.
    + apply find_none_existsb in Ef. rewrite Ef, andb_false_r. lia.
Qed.

Lemma clicks_of_handle_all ADMIN_ID u es t :
  clicks_of u (handle_all ADMIN_ID es t)
  = clicks_of u t + served_starts ADMIN_ID u es t.
Proof.
  unfold handle_all. revert t.
  induction es as [| e es IH]; intros t; cbn [fold_left served_starts].
  - lia.
  - rewrite IH, clicks_of_handle. lia.
Qed.

Lemma unique_ids_handle_all ADMIN_ID es t :
  unique_ids t -> unique_ids (handle_all ADMIN_ID es t).
Proof.
  apply handle_all_keeps. intros e t0. apply unique_ids_handle.
Qed.

(** X17: clicks are counted by [/start] and by nothing else.  After any
    run of updates on a table with distinct identifiers, the
    [click_count] of a row is the count the table held under its
    identifier (0 for a row added during the run) plus the number of
    [/start] updates, from any sender, that carried this identifier as
    first argument while it was in the table; submissions, [/stats],
    [/help] and callbacks never change a count. *)
Theorem X17_clicks_count_start_updates
    (ADMIN_ID : Z) (es : list event) (t : table) (r : row) :
  unique_ids t ->
  In r (handle_all ADMIN_ID es t) ->
  click_count r
  = clicks_of (unique_id r) t + served_starts ADMIN_ID (unique_id r) es t.
Proof.
  intros Hu Hin.
  rewrite <- clicks_of_handle_all. unfold clicks_of.
  rewrite (find_unique _ _ (unique_ids_handle_all ADMIN_ID es t Hu) Hin).
  reflexivity.
Qed.

Lemma X17_clicks_count_start_updates_witness :
  click_count (sample_stored_row 2)
  = clicks_of sample_unique_id []
    + served_starts 1 sample_unique_id
        [sample_start sample_unique_id; sample_submission;
         sample_start sample_unique_id; sample_start "abc";
         mkEvent CommandStats (mkUpdate sample_admin "" "") sample_context
                 sample_clocks;
         sample_start sample_unique_id] [].
Proof.
  apply (X17_clicks_count_start_updates 1
           [sample_start sample_unique_id; sample_submission;
            sample_start sample_unique_id; sample_start "abc";
            mkEvent CommandStats (mkUpdate sample_admin "" "") sample_context
                    sample_clocks;
            sample_start sample_unique_id] [] (sample_stored_row 2)).
  - constructor.
  - vm_compute. left. reflexivity.
Defined.

(* ===================================================================== *)
(** ** A whole session *)
(* ===================================================================== *)





Example first_create_wins :
  value_of
    (run (get_original_url "abc") sample_clocks
         (final_table
            [(Create "abc" "https://example.com/a" 1 "Ada", sample_clocks);
             (Create "abc" "https://example.org/b" 1 "Ada", sample_clocks)]
            []))
  = Some "https://example.com/a".
Proof. reflexivity. Qed.

(* ===================================================================== *)
(** ** What an accepted submission stores *)
(* ===================================================================== *)

(** X19: an accepted submission under a new identifier appends exactly
    one row: the next rowid, the generated identifier, the text as sent,
    the database's timestamp, a click count of 0, the admin's id and the
    admin's rendered name.  The insert is committed before the reply is
    sent, and the reply carries the deep link for that identifier. *)
Theorem X19_accepted_submission_stores_one_row
    (ADMIN_ID : Z) (update : Update) (context : Context)
    (c : clocks) (t : table) :
  User.id (effective_user update) = ADMIN_ID ->
  has_scheme (message_text update) = true ->
  ~ In (unique_id_for (message_text update) (clock_time c))
       (map unique_id t) ->
  let u := unique_id_for (message_text update) (clock_time c) in
  let name := user_name_of (effective_user update) in
  run (handle_url ADMIN_ID update context) c t
  = (tt,
     t ++ [mkRow (next_rowid t) u (message_text update) (clock_sql c) 0
                 ADMIN_ID name],
     [TimeTime; Connect;
      Execute (InsertUrl u (message_text update) ADMIN_ID name);
      Commit;
      Log INFO ("Stored URL mapping: " ++ u ++ " -> "
                ++ message_text update)%string;
      Close;
      ReplyText
        (result_message_of (message_text update)
                           (deep_link_of (bot_username context) u))
        (Some (share_keyboard (message_text update)
                              (deep_link_of (bot_username context) u)));
      Log INFO
        ("Admin " ++ PyStr.str_of_int ADMIN_ID
         ++ " generated deep link for URL: " ++ message_text update
         ++ " -> " ++ deep_link_of (bot_username context) u)%string]).
Proof.
  intros Ha Hs Hfresh u name.
  rewrite (run_handle_url_accepted _ _ _ _ _ Ha Hs). cbv zeta.
  fold u. fold name.
  rewrite run_create_fresh by (apply not_in_existsb; exact Hfresh).
  unfold handle_url_replies. rewrite Ha. reflexivity.
Qed.

Lemma X19_accepted_submission_stores_one_row_witness :
  table_of (run (handle_url 1 sample_update sample_context) sample_clocks [])
  = [sample_stored_row 0].
Proof.
  rewrite (X19_accepted_submission_stores_one_row 1 sample_update
             sample_context sample_clocks [] eq_refl eq_refl
             (fun H => match H with end)).
  reflexivity.
Defined.
